(** * Subscription detector of the Smart Financial Coach ([app.py])

    A shallow embedding of [detect_subscriptions] and the properties its
    design document states about it.

    Modelling conventions.
    - A pandas [DataFrame] with the columns [date], [description], [amount],
      [category] is a list of rows, in frame order.
    - A timestamp is an integer count of nanoseconds since the epoch, as in
      pandas; [Timedelta.days] is the floor of the difference in days.
    - Amounts are exact rationals ([Q]); a cell that is not a number is kept
      as the text it holds.  Binary floating point rounding, NaN and NaT are
      not modelled.
    - Python exceptions are values of [error]; a computation that may raise
      returns a [result].
    - The caller's frame is threaded explicitly: [detect_subscriptions]
      returns the frame as the caller sees it afterwards, together with the
      outcome of the call.
    - Text is a [string] of bytes; the whitespace of [str.split] is the
      ASCII one.
    - [pandas.to_datetime] is a parameter of the development: a function
      from text to an optional timestamp, applied cell by cell.  Its
      exception carries the position and the text of the first cell it
      rejects.
    - [sort_values] orders by date and keeps rows of equal date in frame
      order, as the design document has it. *)

From Stdlib Require Import ZArith QArith Qabs Qround List String Ascii Bool.
From Stdlib Require Import DecimalString Lia Permutation Sorted ListSet.
Import ListNotations.

Open Scope string_scope.
Open Scope Z_scope.

(** ** Exceptions *)

Inductive error : Type :=
| DateParseError (position : nat) (text : string)
| IndexError
| TypeError
| ZeroDivisionError.

Inductive result (A : Type) : Type :=
| Ok (a : A)
| Raise (e : error).

Arguments Ok {A} a.
Arguments Raise {A} e.

Definition bind {A B : Type} (c : result A) (k : A -> result B) : result B :=
  match c with
  | Ok a => k a
  | Raise e => Raise e
  end.

Notation "x <- c ;; k" := (bind c (fun x => k))
  (at level 61, c at next level, right associativity).

(** ** Python strings: [str.split()] *)

Module PyStr.

(** [str.isspace] on one character of the ASCII range: TAB, LF, VT, FF, CR,
    the separators FS, GS, RS, US, and the space. *)
Definition isspace (c : ascii) : bool :=
  let n := nat_of_ascii c in
  ((9 <=? n) && (n <=? 13) || (28 <=? n) && (n <=? 32))%nat.

(** One pass of [split]: [word] is the token being read, if any. *)
Fixpoint split_aux (s : string) (word : option string) : list string :=
  match s with
  | EmptyString =>
      match word with
      | Some w => [w]
      | None => []
      end
  | String c rest =>
      if isspace c then
        match word with
        | Some w => w :: split_aux rest None
        | None => split_aux rest None
        end
      else
        match word with
        | Some w => split_aux rest (Some (w ++ String c EmptyString))
        | None => split_aux rest (Some (String c EmptyString))
        end
  end.

(** [s.split()]: the maximal runs of non-whitespace characters. *)
Definition split (s : string) : list string := split_aux s None.

(** [xs[0]] on a list. *)
Definition item0 {A : Type} (xs : list A) : result A :=
  match xs with
  | x :: _ => Ok x
  | [] => Raise IndexError
  end.


End PyStr.

(** ** Number and date rendering *)

Module Fmt.

Definition decimal (z : Z) : string := NilZero.string_of_int (Z.to_int z).

(** Zero-padded rendering of a non-negative number on at least [width]
    digits. *)
Fixpoint zeros (n : nat) : string :=
  match n with
  | O => EmptyString
  | S k => String "0" (zeros k)
  end.

Definition padded (width : nat) (z : Z) : string :=
  let d := decimal z in
  zeros (width - String.length d) ++ d.

(** Nearest integer to a non-negative rational, ties to even. *)
Definition round_half_even (x : Q) : Z :=
  let f := Qfloor x in
  let r := (x - inject_Z f)%Q in
  match (r ?= 1 # 2)%Q with
  | Lt => f
  | Gt => f + 1
  | Eq => if Z.even f then f else f + 1
  end.

(** The value shown by the format [.2f], in hundredths, sign apart. *)
Definition hundredths (x : Q) : Z := round_half_even (Qabs x * 100).

(** [f"{x:.2f}"]. *)
Definition fixed2 (x : Q) : string :=
  let c := hundredths x in
  (if Qle_bool 0 x then "" else "-")
    ++ decimal (c / 100) ++ "." ++ padded 2 (c mod 100).

(** [int(x)]: truncation toward zero. *)
Definition py_int (x : Q) : Z := Z.quot (Qnum x) (Zpos (Qden x)).

End Fmt.

(** ** Timestamps *)

Module Timestamp.

Definition ns_per_day : Z := 86400000000000.

(** [Timedelta.days] of a difference of two timestamps. *)
Definition days (delta : Z) : Z := delta / ns_per_day.

(** Proleptic Gregorian calendar: day number (days since 1970-01-01) of a
    civil date, and back. *)
Definition days_from_civil (y m d : Z) : Z :=
  let y' := if m <=? 2 then y - 1 else y in
  let era := y' / 400 in
  let yoe := y' - era * 400 in
  let mp := if 2 <? m then m - 3 else m + 9 in
  let doy := (153 * mp + 2) / 5 + d - 1 in
  let doe := yoe * 365 + yoe / 4 - yoe / 100 + doy in
  era * 146097 + doe - 719468.

Definition civil_from_days (z : Z) : Z * Z * Z :=
  let z' := z + 719468 in
  let era := z' / 146097 in
  let doe := z' - era * 146097 in
  let yoe := (doe - doe / 1460 + doe / 36524 - doe / 146096) / 365 in
  let doy := doe - (365 * yoe + yoe / 4 - yoe / 100) in
  let mp := (5 * doy + 2) / 153 in
  let d := doy - (153 * mp + 2) / 5 + 1 in
  let m := if mp <? 10 then mp + 3 else mp - 9 in
  let y := yoe + era * 400 in
  (if m <=? 2 then y + 1 else y, m, d).

(** [ts.strftime('%Y-%m-%d')]. *)
Definition strftime_ymd (ts : Z) : string :=
  let '(y, m, d) := civil_from_days (days ts) in
  Fmt.padded 4 y ++ "-" ++ Fmt.padded 2 m ++ "-" ++ Fmt.padded 2 d.

(** Midnight of a day number. *)
Definition of_day (n : Z) : Z := n * ns_per_day.

End Timestamp.

(** ** A date parser for concrete runs

    [pandas.to_datetime] accepts many notations; the detector is verified
    against an arbitrary parser.  Concrete runs use this one, which reads the
    ISO form [YYYY-MM-DD] and nothing else. *)

Module Iso.

Definition digit (c : ascii) : option Z :=
  let n := nat_of_ascii c in
  if ((48 <=? n) && (n <=? 57))%nat then Some (Z.of_nat n - 48) else None.

Fixpoint number (acc : Z) (cs : list ascii) : option Z :=
  match cs with
  | [] => Some acc
  | c :: rest =>
      match digit c with
      | Some d => number (10 * acc + d) rest
      | None => None
      end
  end.

Definition leap (y : Z) : bool :=
  (y mod 4 =? 0) && (negb (y mod 100 =? 0) || (y mod 400 =? 0)).

Definition month_length (y m : Z) : Z :=
  if m =? 2 then (if leap y then 29 else 28)
  else if (m =? 4) || (m =? 6) || (m =? 9) || (m =? 11) then 30
  else 31.

Definition parse (s : string) : option Z :=
  match list_ascii_of_string s with
  | [y1; y2; y3; y4; "-"%char; m1; m2; "-"%char; d1; d2] =>
      match number 0 [y1; y2; y3; y4], number 0 [m1; m2], number 0 [d1; d2] with
      | Some y, Some m, Some d =>
          if (1 <=? m) && (m <=? 12) && (1 <=? d) && (d <=? month_length y m)
          then Some (Timestamp.of_day (Timestamp.days_from_civil y m d))
          else None
      | _, _, _ => None
      end
  | _ => None
  end.

End Iso.

(** ** Data *)

(** A cell of the [date] column: text as read from the file, or a timestamp
    once the column has been converted. *)
Inductive date_cell : Type :=
| DateText (text : string)
| DateStamp (ts : Z).

(** A cell of the [amount] column: a number, or any other text. *)
Inductive amount_cell : Type :=
| Num (q : Q)
| NonNum (text : string).

Record row : Type := mkRow {
  date : date_cell;
  description : string;
  amount : amount_cell;
  category : string
}.

Definition DataFrame : Type := list row.

(** The dictionary appended to a merchant's list in the grouping loop. *)
Record txn : Type := mkTxn {
  txn_date : Z;
  txn_amount : amount_cell;
  full_description : string;
  txn_category : string
}.

(** One row of the returned frame. *)
Record subscription : Type := mkSubscription {
  Service : string;
  Monthly_Cost : string;
  Frequency : string;
  Category : string;
  Times_Charged : nat;
  Last_Charge : string;
  Annual_Cost : string;
  cost_numeric : Q
}.

(** [merchant_groups]: a dictionary that keeps its keys in insertion order. *)
Definition merchant_groups : Type := list (string * list txn).

(** ** Sorting

    [sort_values] and [sorted] are modelled as one stable sort on an integer
    key: rows with equal keys keep their relative order. *)

Section Sort.

Context {A : Type} (key : A -> Z).

Fixpoint insert_by (x : A) (l : list A) : list A :=
  match l with
  | [] => [x]
  | y :: rest => if key y <? key x then y :: insert_by x rest else x :: l
  end.

Fixpoint sort_by (l : list A) : list A :=
  match l with
  | [] => []
  | x :: rest => insert_by x (sort_by rest)
  end.

(** In order of key, and in strict order of key. *)
Definition ascending (l : list A) : Prop :=
  StronglySorted (fun a b => key a <= key b) l.

Definition increasing (l : list A) : Prop :=
  StronglySorted (fun a b => key a < key b) l.

End Sort.

(** ** Arithmetic of the loop body *)

(** [sum(amounts)]: starts from 0 and adds from the left; adding text to a
    number is a [TypeError]. *)
Fixpoint sum_amounts (acc : Q) (amounts : list amount_cell) : result Q :=
  match amounts with
  | [] => Ok acc
  | Num q :: rest => sum_amounts (acc + q)%Q rest
  | NonNum _ :: _ => Raise TypeError
  end.

(** [x / n] with [n] a length. *)
Definition true_div (x : Q) (n : nat) : result Q :=
  match n with
  | O => Raise ZeroDivisionError
  | S _ => Ok (x / inject_Z (Z.of_nat n))%Q
  end.

(** [all(abs(amt - avg_amount) <= 1.0 for amt in amounts)]; [all] stops at the
    first element that fails. *)
Fixpoint all_close (avg_amount : Q) (amounts : list amount_cell) : result bool :=
  match amounts with
  | [] => Ok true
  | Num q :: rest =>
      if Qle_bool (Qabs (q - avg_amount)) 1 then all_close avg_amount rest
      else Ok false
  | NonNum _ :: _ => Raise TypeError
  end.

(** The loop over [range(len(transactions) - 1)] that fills [intervals]. *)
Fixpoint intervals_of (transactions : list txn) : list Z :=
  match transactions with
  | a :: (b :: _) as rest =>
      Timestamp.days (txn_date b - txn_date a) :: intervals_of rest
  | _ => []
  end.

Definition sum_Z (l : list Z) : Z := fold_left Z.add l 0.

(** [all(25 <= interval <= 35 for interval in intervals)]. *)
Definition interval_consistent (intervals : list Z) : bool :=
  forallb (fun interval => (25 <=? interval) && (interval <=? 35)) intervals.

(** [transactions[-1]] of a list known to be non-empty; [d] is never used by
    the detector. *)
Definition last_txn (transactions : list txn) (d : txn) : txn := last transactions d.

(** ** The detector *)

(** [merchant_groups[merchant].append(t)] on the default dictionary. *)
Fixpoint dict_append (groups : merchant_groups) (merchant : string) (t : txn)
  : merchant_groups :=
  match groups with
  | [] => [(merchant, [t])]
  | (k, ts) :: rest =>
      if String.eqb k merchant then (k, (ts ++ [t])%list) :: rest
      else (k, ts) :: dict_append rest merchant t
  end.

(** The loop over [df.iterrows()]: rows are pairs of the converted date and
    the row it belongs to. *)
Fixpoint group_rows (rows : list (Z * row)) (groups : merchant_groups)
  : result merchant_groups :=
  match rows with
  | [] => Ok groups
  | (ts, r) :: rest =>
      merchant <- PyStr.item0 (PyStr.split (description r)) ;;
      group_rows rest
        (dict_append groups merchant
           (mkTxn ts (amount r) (description r) (category r)))
  end.

(** The body of the loop over [merchant_groups.items()]: [None] when nothing
    is appended for the group. *)
Definition examine (transactions0 : list txn) : result (option subscription) :=
  if (List.length transactions0 <? 2)%nat then Ok None
  else
    let transactions := sort_by txn_date transactions0 in
    let amounts := map txn_amount transactions in
    let intervals := intervals_of transactions in
    total <- sum_amounts 0 amounts ;;
    avg_amount <- true_div total (List.length amounts) ;;
    amount_variance <- all_close avg_amount amounts ;;
    match intervals with
    | [] => Ok None
    | _ :: _ =>
        avg_interval <- true_div (inject_Z (sum_Z intervals)) (List.length intervals) ;;
        if amount_variance && interval_consistent intervals then
          match transactions with
          | [] => Raise IndexError
          | first :: _ =>
              Ok (Some {|
                Service := full_description first;
                Monthly_Cost := "$" ++ Fmt.fixed2 avg_amount;
                Frequency := "Every ~" ++ Fmt.decimal (Fmt.py_int avg_interval) ++ " days";
                Category := txn_category first;
                Times_Charged := List.length transactions;
                Last_Charge := Timestamp.strftime_ymd (txn_date (last_txn transactions first));
                Annual_Cost := "$" ++ Fmt.fixed2 (avg_amount * 12);
                cost_numeric := avg_amount
              |})
          end
        else Ok None
    end.

Fixpoint scan_groups (groups : merchant_groups) (subscriptions : list subscription)
  : result (list subscription) :=
  match groups with
  | [] => Ok subscriptions
  | (_, transactions) :: rest =>
      found <- examine transactions ;;
      match found with
      | Some s => scan_groups rest (subscriptions ++ [s])%list
      | None => scan_groups rest subscriptions
      end
  end.


(** ** Vocabulary of the design document, on transactions *)

(** MerchantKey: the first whitespace-delimited token of a description. *)
Definition merchant_key (description : string) : option string :=
  hd_error (PyStr.split description).

Definition key_of (t : txn) : option string := merchant_key (full_description t).

Definition has_key (k : string) (t : txn) : bool :=
  match key_of t with
  | Some k' => String.eqb k' k
  | None => false
  end.

(** The distinct elements of a list, in order of first occurrence. *)
Fixpoint first_seen (ks : list string) : list string :=
  match ks with
  | [] => []
  | k :: rest => k :: filter (fun k' => negb (String.eqb k' k)) (first_seen rest)
  end.

Definition keys_of (ts : list txn) : list string :=
  first_seen (flat_map (fun t => match key_of t with
                                 | Some k => [k]
                                 | None => []
                                 end) ts).

(** The partition of a transaction stream into merchant groups, keys in
    order of first occurrence. *)
Definition grouped (ts : list txn) : merchant_groups :=
  map (fun k => (k, filter (has_key k) ts)) (keys_of ts).

(** The dictionary built by the grouping loop, one transaction at a time. *)
Definition place (groups : merchant_groups) (t : txn) : merchant_groups :=
  match key_of t with
  | Some k => dict_append groups k t
  | None => groups
  end.

(** The dictionary made of a row of the converted frame. *)
Definition txn_of_pair (p : Z * row) : txn :=
  mkTxn (fst p) (amount (snd p)) (description (snd p)) (category (snd p)).

(** The numbers among the cells of an amount column, and among the amounts
    of a group. *)
Definition values (cells : list amount_cell) : list Q :=
  flat_map (fun c => match c with
                     | Num q => [q]
                     | NonNum _ => []
                     end) cells.

Definition numbers (g : list txn) : list Q := values (map txn_amount g).

Definition is_number (c : amount_cell) : Prop := exists q, c = Num q.

Definition numeric_group (g : list txn) : Prop :=
  Forall (fun t => is_number (txn_amount t)) g.

(** What the loop body appends for a group: one record or nothing. *)
Definition emitted (g : list txn) : list subscription :=
  match examine g with
  | Ok (Some s) => [s]
  | _ => []
  end.

Definition mean (xs : list Q) : Q :=
  (fold_right Qplus 0 xs / inject_Z (Z.of_nat (List.length xs)))%Q.

(** Amount stability: every amount is a number within 1.00 of the mean. *)
Definition amount_stable (g : list txn) : Prop :=
  forall t, In t g ->
    exists q, txn_amount t = Num q /\ (Qabs (q - mean (numbers g)) <= 1)%Q.

(** The day interval between the transactions at positions [i] and [i+1]. *)
Definition gap (g : list txn) (i : nat) (d : txn) : Z :=
  Timestamp.days (txn_date (nth (S i) g d) - txn_date (nth i g d)).

(** Interval regularity: every interval lies in the closed range 25..35. *)
Definition interval_regular (g : list txn) : Prop :=
  forall i d, (S i < List.length g)%nat -> 25 <= gap g i d <= 35.

(** The condition under which the design document emits a record. *)
Definition recurring (g : list txn) : Prop :=
  (2 <= List.length g)%nat /\ amount_stable g /\ interval_regular g.


(** floor(mean(intervals)). *)
Definition floor_mean (intervals : list Z) : Z :=
  fold_right Z.add 0 intervals / Z.of_nat (List.length intervals).

Section Detector.

(** The text-to-timestamp conversion of [pandas.to_datetime], which is not
    part of the repository: any function will do. *)
Variable parse_datetime : string -> option Z.

(** [pd.to_datetime] on a column: timestamps pass through, text is parsed, and
    the first cell that does not parse raises. *)
Fixpoint to_datetime_from (position : nat) (column : list date_cell)
  : result (list Z) :=
  match column with
  | [] => Ok []
  | DateStamp ts :: rest =>
      stamps <- to_datetime_from (S position) rest ;;
      Ok (ts :: stamps)
  | DateText text :: rest =>
      match parse_datetime text with
      | Some ts =>
          stamps <- to_datetime_from (S position) rest ;;
          Ok (ts :: stamps)
      | None => Raise (DateParseError position text)
      end
  end.

Definition to_datetime (column : list date_cell) : result (list Z) :=
  to_datetime_from 0 column.

(** [df['date'] = stamps], on the frame the caller passed. *)
Fixpoint assign_date (df : DataFrame) (stamps : list Z) : DataFrame :=
  match df, stamps with
  | r :: rest, ts :: stamps' =>
      mkRow (DateStamp ts) (description r) (amount r) (category r)
        :: assign_date rest stamps'
  | _, _ => []
  end.

(** [df.sort_values('date')]: a new frame, here with the timestamp of each
    row beside it. *)
Definition sort_values (df : DataFrame) (stamps : list Z) : list (Z * row) :=
  sort_by fst (combine stamps df).

(** [detect_subscriptions(df)]: the caller's frame after the call, and the
    list handed to [pd.DataFrame] or the exception raised. *)
Definition detect_subscriptions (df : DataFrame)
  : DataFrame * result (list subscription) :=
  match to_datetime (map date df) with
  | Raise e => (df, Raise e)
  | Ok stamps =>
      (assign_date df stamps,
       groups <- group_rows (sort_values df stamps) [] ;;
       scan_groups groups [])
  end.

(** ** Vocabulary of the design document *)

(** The timestamp a date cell stands for, when it has one. *)
Definition stamp_of (c : date_cell) : option Z :=
  match c with
  | DateStamp ts => Some ts
  | DateText text => parse_datetime text
  end.

(** The Transaction a row denotes, with its date converted. *)
Definition transaction_of (r : row) : option txn :=
  match stamp_of (date r) with
  | Some ts => Some (mkTxn ts (amount r) (description r) (category r))
  | None => None
  end.

Definition charges (df : DataFrame) : list txn :=
  flat_map (fun r => match transaction_of r with
                     | Some t => [t]
                     | None => []
                     end) df.

(** The transactions of a frame in date order, as the grouping loop meets
    them. *)
Definition stream (df : DataFrame) : list txn := sort_by txn_date (charges df).

(** A row with its date cell replaced by the timestamp it stands for. *)
Definition convert_row (r : row) : row :=
  match stamp_of (date r) with
  | Some ts => mkRow (DateStamp ts) (description r) (amount r) (category r)
  | None => r
  end.

(** MerchantGroup: the transactions sharing a MerchantKey, ordered by date. *)
Definition merchant_group (df : DataFrame) (k : string) : list txn :=
  sort_by txn_date (filter (has_key k) (charges df)).

(** Well-formed input: every date converts, every description has a first
    token, every amount is a number. *)
Definition dates_parse (df : DataFrame) : Prop :=
  Forall (fun r => stamp_of (date r) <> None) df.

Definition described (df : DataFrame) : Prop :=
  Forall (fun r => merchant_key (description r) <> None) df.

Definition numeric (df : DataFrame) : Prop :=
  Forall (fun r => exists q, amount r = Num q) df.

Definition well_formed (df : DataFrame) : Prop :=
  dates_parse df /\ described df /\ numeric df.

End Detector.

(** ** Further vocabulary *)

(** Text without a whitespace character, and text that is empty or starts
    with one. *)
Fixpoint no_space (s : string) : bool :=
  match s with
  | EmptyString => true
  | String c rest => negb (PyStr.isspace c) && no_space rest
  end.


(** [x] is no later than [y], for dates that may be missing. *)
Definition no_later (x y : option Z) : Prop :=
  forall a b, x = Some a -> y = Some b -> a <= b.

Section Listing.

Variable parse_datetime : string -> option Z.

(** The date of the first charge of the merchant a record is about. *)
Definition first_charge (df : DataFrame) (s : subscription) : option Z :=
  match merchant_key (Service s) with
  | Some k => option_map txn_date (hd_error (merchant_group parse_datetime df k))
  | None => None
  end.

End Listing.

(** ** The page around the detector ([main])

    What [main] computes from the detected subscriptions: the totals of the
    metric row, the set of subscriptions marked for cancellation, which
    lives in the session state and is updated from the check boxes, and the
    savings block.  The frame of subscriptions is the list of its rows,
    indexed from 0, as [pd.DataFrame(subscriptions)] builds it.  The value
    [st.checkbox] returns for a row is an input. *)

Module Page.

(** [Series.sum()] of a numeric column. *)
Definition column_sum (column : list Q) : Q := fold_left Qplus column 0%Q.

(** [total_monthly] and [total_annual]. *)
Definition total_monthly (subscriptions_df : list subscription) : Q :=
  column_sum (map cost_numeric subscriptions_df).

Definition total_annual (subscriptions_df : list subscription) : Q :=
  (total_monthly subscriptions_df * 12)%Q.

(** The three metrics of the top row: the count, and the two totals as
    rendered. *)
Definition metrics (subscriptions_df : list subscription) : nat * string * string :=
  (List.length subscriptions_df,
   "$" ++ Fmt.fixed2 (total_monthly subscriptions_df),
   "$" ++ Fmt.fixed2 (total_annual subscriptions_df)).

(** One pass of the loop over the rows: [is_checked] is what the check box
    of row [idx] returned. *)
Definition toggle (is_checked : nat -> bool) (marked : set nat) (idx : nat) : set nat :=
  if is_checked idx then set_add Nat.eq_dec idx marked
  else if set_mem Nat.eq_dec idx marked then set_remove Nat.eq_dec idx marked
  else marked.

(** The loop over [subscriptions_df.iterrows()]. *)
Definition track (is_checked : nat -> bool) (subscriptions_df : list subscription)
           (marked : set nat) : set nat :=
  fold_left (toggle is_checked) (seq 0 (List.length subscriptions_df)) marked.

(** [subscriptions_df.iloc[positions]]: a position past the end raises. *)
Fixpoint iloc (subscriptions_df : list subscription) (positions : list nat)
  : result (list subscription) :=
  match positions with
  | [] => Ok []
  | idx :: rest =>
      match nth_error subscriptions_df idx with
      | Some row => rows <- iloc subscriptions_df rest ;; Ok (row :: rows)
      | None => Raise IndexError
      end
  end.

(** The savings block: nothing when no subscription is marked, else the
    monthly and annual savings and the marked rows. *)
Definition savings (subscriptions_df : list subscription) (marked : set nat)
  : result (option (Q * Q * list subscription)) :=
  match marked with
  | [] => Ok None
  | _ :: _ =>
      marked_subscriptions <- iloc subscriptions_df marked ;;
      let monthly_savings := column_sum (map cost_numeric marked_subscriptions) in
      let annual_savings := (monthly_savings * 12)%Q in
      Ok (Some (monthly_savings, annual_savings, marked_subscriptions))
  end.

(** The part of [main] after detection: the session entry
    [marked_for_cancellation] as it is left, and what was computed.  With no
    subscription the page shows a notice and the session is not touched. *)
Definition report (is_checked : nat -> bool) (subscriptions_df : list subscription)
           (session : option (set nat))
  : option (set nat) * result (option (nat * string * string
                                       * option (Q * Q * list subscription))) :=
  if (0 <? List.length subscriptions_df)%nat then
    let marked0 := match session with
                   | Some marked => marked
                   | None => empty_set nat
                   end in
    let marked := track is_checked subscriptions_df marked0 in
    (Some marked,
     saved <- savings subscriptions_df marked ;;
     Ok (Some (metrics subscriptions_df, saved)))
  else (session, Ok None).

End Page.

(** ** Concrete frames *)

Module Scenario.

Definition charge (day description : string) (amount : Q) (category : string) : row :=
  mkRow (DateText day) description (Num amount) category.

(** What the detector returns on a frame, with the ISO parser; the empty
    list stands for an exception. *)
Definition records (df : DataFrame) : list subscription :=
  match snd (detect_subscriptions Iso.parse df) with
  | Ok subs => subs
  | Raise _ => []
  end.

(** Three monthly charges of one service. *)
Definition netflix : DataFrame :=
  [ charge "2024-01-01" "Netflix" (1599 # 100) "Entertainment";
    charge "2024-01-31" "Netflix" (1599 # 100) "Entertainment";
    charge "2024-03-01" "Netflix" (1599 # 100) "Entertainment" ].



(** Five monthly charges, the last one a cent dearer. *)
Definition gym : DataFrame :=
  [ charge "2024-01-01" "Gym membership" (1000 # 100) "Health";
    charge "2024-01-31" "Gym membership" (1000 # 100) "Health";
    charge "2024-03-01" "Gym membership" (1000 # 100) "Health";
    charge "2024-03-31" "Gym membership" (1000 # 100) "Health";
    charge "2024-04-30" "Gym membership" (1001 # 100) "Health" ].





(** Scenarios B, C and E of the design document: ten days apart, four
    currency units apart, and a single charge. *)
Definition ten_days_apart : DataFrame :=
  [ charge "2024-01-01" "Netflix" (1599 # 100) "Entertainment";
    charge "2024-01-11" "Netflix" (1599 # 100) "Entertainment" ].

Definition price_jump : DataFrame :=
  [ charge "2024-01-01" "Netflix" (1599 # 100) "Entertainment";
    charge "2024-01-31" "Netflix" (1999 # 100) "Entertainment" ].

Definition single_charge : DataFrame :=
  [ charge "2024-01-01" "Spotify" (999 # 100) "Music" ].

(** A description of three spaces. *)
Definition blank_description : DataFrame :=
  [ charge "2024-01-05" "   " (999 # 100) "Misc" ].

(** Two services first charged on the same day, in the two possible
    orders. *)
Definition netflix_first : DataFrame :=
  [ charge "2024-01-01" "Netflix" (1599 # 100) "Entertainment";
    charge "2024-01-01" "Spotify" (999 # 100) "Music";
    charge "2024-01-31" "Netflix" (1599 # 100) "Entertainment";
    charge "2024-01-31" "Spotify" (999 # 100) "Music" ].


End Scenario.

(** ** Further concrete data *)

Module Sample.

(** The two January charges of one service. *)
Definition netflix_pair : DataFrame :=
  [ Scenario.charge "2024-01-01" "Netflix" (1599 # 100) "Entertainment";
    Scenario.charge "2024-01-31" "Netflix" (1599 # 100) "Entertainment" ].

(** A list of three detected subscriptions. *)
Definition listing : list subscription :=
  [ mkSubscription "Netflix" "$15.99" "Every ~30 days" "Entertainment" 3
                   "2024-03-01" "$191.88" (1599 # 100);
    mkSubscription "Spotify" "$9.99" "Every ~30 days" "Music" 2
                   "2024-01-31" "$119.88" (999 # 100);
    mkSubscription "Gym membership" "$10.00" "Every ~30 days" "Health" 5
                   "2024-04-30" "$120.02" (10002 # 1000) ].

(** Marks left by an earlier list of six subscriptions or more. *)
Definition stale_marks : set nat := [0; 5]%nat.

(** Only the box of the second row is ticked. *)
Definition second_ticked (idx : nat) : bool := Nat.eqb idx 1.

End Sample.

(** * Properties *)

(** ** The stable sort *)

Section SortFacts.

Context {A : Type} (key : A -> Z).

Lemma insert_by_perm (x : A) (l : list A) :
  Permutation (insert_by key x l) (x :: l).
Proof.
  induction l as [|y l IH]; simpl.
  - reflexivity.
  - destruct (key y <? key x).
    + rewrite IH. apply perm_swap.
    + reflexivity.
Qed.

Lemma sort_by_perm (l : list A) : Permutation (sort_by key l) l.
Proof.
  induction l as [|x l IH]; simpl.
  - reflexivity.
  - rewrite insert_by_perm. now apply perm_skip.
Qed.

Lemma sort_by_length (l : list A) : List.length (sort_by key l) = List.length l.
Proof. apply Permutation_length, sort_by_perm. Qed.

Lemma sort_by_In (l : list A) (x : A) : In x (sort_by key l) <-> In x l.
Proof.
  split; apply Permutation_in; [|symmetry]; apply sort_by_perm.
Qed.

Lemma insert_by_ascending (x : A) (l : list A) :
  ascending key l -> ascending key (insert_by key x l).
Proof.
  unfold ascending. induction l as [|y l IH]; simpl; intros Hl.
  - constructor; constructor.
  - inversion Hl as [|? ? Hs Hall]; subst.
    destruct (key y <? key x) eqn:E.
    + constructor; [now apply IH|].
      apply Z.ltb_lt in E.
      eapply Permutation_Forall; [symmetry; apply insert_by_perm|].
      constructor; [lia|assumption].
    + apply Z.ltb_ge in E. constructor; [assumption|].
      constructor; [assumption|].
      eapply Forall_impl; [|exact Hall]. simpl. intros; lia.
Qed.

Lemma sort_by_ascending (l : list A) : ascending key (sort_by key l).
Proof.
  induction l as [|x l IH]; simpl.
  - constructor.
  - now apply insert_by_ascending.
Qed.

Lemma insert_by_head (x : A) (l : list A) :
  Forall (fun y => key x <= key y) l -> insert_by key x l = x :: l.
Proof.
  destruct l as [|y l]; simpl; intros H; [reflexivity|].
  inversion H; subst.
  destruct (key y <? key x) eqn:E; [|reflexivity].
  apply Z.ltb_lt in E. lia.
Qed.

(** Sorting a list that is in order already leaves it as it is. *)
Lemma sort_by_ascending_id (l : list A) : ascending key l -> sort_by key l = l.
Proof.
  unfold ascending. induction l as [|x l IH]; simpl; intros Hl; [reflexivity|].
  inversion Hl; subst. rewrite IH by assumption. now apply insert_by_head.
Qed.

Lemma filter_insert_by (p : A -> bool) (x : A) (l : list A) :
  ascending key l ->
  filter p (insert_by key x l)
  = if p x then insert_by key x (filter p l) else filter p l.
Proof.
  unfold ascending. induction l as [|y l IH]; intros Hl.
  - simpl. destruct (p x); reflexivity.
  - inversion Hl as [|? ? Hs Hall]; subst.
    simpl. destruct (key y <? key x) eqn:E.
    + simpl. rewrite (IH Hs).
      destruct (p y), (p x); simpl; try rewrite E; reflexivity.
    + apply Z.ltb_ge in E.
      change (filter p (x :: y :: l)) with
        (if p x then x :: filter p (y :: l) else filter p (y :: l)).
      destruct (p x); [|reflexivity].
      symmetry. apply insert_by_head.
      apply Forall_forall. intros z Hz. apply filter_In in Hz as [Hz _].
      destruct Hz as [<-|Hz]; [assumption|].
      rewrite Forall_forall in Hall. specialize (Hall z Hz). lia.
Qed.

(** Selecting from a sorted list and sorting the selection agree: the sort
    keeps rows with equal keys in their order. *)
Lemma filter_sort_by (p : A -> bool) (l : list A) :
  filter p (sort_by key l) = sort_by key (filter p l).
Proof.
  induction l as [|x l IH]; simpl; [reflexivity|].
  rewrite filter_insert_by by apply sort_by_ascending.
  rewrite IH. destruct (p x); reflexivity.
Qed.

Lemma ascending_filter (p : A -> bool) (l : list A) :
  ascending key l -> ascending key (filter p l).
Proof.
  unfold ascending. induction l as [|x l IH]; simpl; intros Hl; [constructor|].
  inversion Hl as [|? ? Hs Hall]; subst.
  destruct (p x); [|now apply IH].
  constructor; [now apply IH|].
  apply Forall_forall. intros z Hz. apply filter_In in Hz as [Hz _].
  rewrite Forall_forall in Hall. now apply Hall.
Qed.

Lemma increasing_ascending (l : list A) : increasing key l -> ascending key l.
Proof.
  unfold increasing, ascending. induction 1 as [|x l Hs IH Hall]; constructor.
  - assumption.
  - eapply Forall_impl; [|exact Hall]. simpl. intros; lia.
Qed.


End SortFacts.

Lemma insert_by_map {A B : Type} (key : B -> Z) (f : A -> B) (x : A) (l : list A) :
  insert_by key (f x) (map f l) = map f (insert_by (fun a => key (f a)) x l).
Proof.
  induction l as [|y l IH]; simpl; [reflexivity|].
  destruct (key (f y) <? key (f x)); simpl; [now rewrite IH|reflexivity].
Qed.

Lemma sort_by_map {A B : Type} (key : B -> Z) (f : A -> B) (l : list A) :
  sort_by key (map f l) = map f (sort_by (fun a => key (f a)) l).
Proof.
  induction l as [|x l IH]; simpl; [reflexivity|].
  now rewrite IH, insert_by_map.
Qed.

(** ** Grouping by merchant key *)

Lemma first_seen_In (l : list string) (k : string) :
  In k (first_seen l) <-> In k l.
Proof.
  induction l as [|x l IH]; simpl; [tauto|].
  rewrite filter_In, IH.
  destruct (String.eqb_spec k x) as [->|Hne]; simpl.
  - split; [intros _|]; now left.
  - split.
    + intros [H|[H _]]; [now left|now right].
    + intros [H|H]; [now left|now right].
Qed.

Lemma first_seen_NoDup (l : list string) : NoDup (first_seen l).
Proof.
  induction l as [|x l IH]; simpl; constructor.
  - rewrite filter_In. intros [_ H]. now rewrite String.eqb_refl in H.
  - now apply NoDup_filter.
Qed.

Lemma first_seen_snoc (l : list string) (k : string) :
  first_seen (l ++ [k])
  = if in_dec string_dec k l then first_seen l else (first_seen l ++ [k])%list.
Proof.
  induction l as [|x l IH]; simpl; [reflexivity|].
  rewrite IH.
  destruct (in_dec string_dec k l) as [Hin|Hnin];
    destruct (string_dec x k) as [->|Hne]; try reflexivity.
  - destruct (in_dec string_dec k (k :: l)) as [_|H]; [|exfalso; apply H; now left].
    rewrite filter_app. simpl. rewrite String.eqb_refl. simpl.
    now rewrite app_nil_r.
  - destruct (in_dec string_dec k (x :: l)) as [[H|H]|_]; try contradiction.
    rewrite filter_app. simpl.
    destruct (String.eqb_spec k x) as [->|_]; [contradiction|reflexivity].
Qed.

Lemma dict_append_map (G : string -> list txn) (ks : list string)
      (k : string) (t : txn) :
  NoDup ks ->
  dict_append (map (fun k' => (k', G k')) ks) k t
  = if in_dec string_dec k ks
    then map (fun k' => (k', if String.eqb k' k then (G k' ++ [t])%list else G k')) ks
    else (map (fun k' => (k', G k')) ks ++ [(k, [t])])%list.
Proof.
  induction ks as [|x ks IH]; intros Hnd; [reflexivity|].
  inversion Hnd as [|? ? Hx Hks]; subst. simpl.
  destruct (String.eqb_spec x k) as [->|Hne].
  - destruct (string_dec k k) as [E|H]; [|contradiction].
    f_equal. apply map_ext_in. intros k' Hk'.
    destruct (String.eqb_spec k' k) as [->|_]; [contradiction|reflexivity].
  - rewrite (IH Hks).
    destruct (string_dec x k) as [E|E]; [contradiction|].
    destruct (in_dec string_dec k ks); reflexivity.
Qed.

Lemma has_key_iff (k : string) (t : txn) :
  has_key k t = true <-> key_of t = Some k.
Proof.
  unfold has_key. destruct (key_of t) as [k'|]; [|split; discriminate].
  destruct (String.eqb_spec k' k) as [->|Hne]; split; congruence.
Qed.

Lemma keys_of_In (ts : list txn) (k : string) :
  In k (keys_of ts) <-> exists t, In t ts /\ key_of t = Some k.
Proof.
  unfold keys_of. rewrite first_seen_In, in_flat_map.
  split; intros [t [Ht H]]; exists t; split; try assumption.
  - destruct (key_of t); simpl in H; [|contradiction].
    destruct H as [->|[]]. reflexivity.
  - rewrite H. now left.
Qed.

Lemma grouped_snoc (ts : list txn) (t : txn) (k : string) :
  key_of t = Some k ->
  grouped (ts ++ [t]) = dict_append (grouped ts) k t.
Proof.
  intros Hk. unfold grouped.
  rewrite dict_append_map by apply first_seen_NoDup.
  unfold keys_of. rewrite flat_map_app. simpl. rewrite Hk. simpl.
  rewrite first_seen_snoc.
  fold (keys_of ts).
  assert (Hin : forall x, In x (flat_map (fun t0 => match key_of t0 with
                                            | Some k0 => [k0]
                                            | None => []
                                            end) ts) <-> In x (keys_of ts)).
  { intros x. unfold keys_of. now rewrite first_seen_In. }
  destruct (in_dec string_dec k _) as [H1|H1];
    destruct (in_dec string_dec k (keys_of ts)) as [H2|H2];
    try (apply Hin in H1; contradiction);
    try (apply Hin in H2; contradiction).
  - apply map_ext. intros k'. f_equal.
    rewrite filter_app. simpl. unfold has_key at 2. rewrite Hk.
    destruct (String.eqb k k') eqn:E; rewrite String.eqb_sym in E; rewrite E.
    + reflexivity.
    + now rewrite app_nil_r.
  - rewrite map_app. simpl. f_equal.
    + apply map_ext_in. intros k' Hk'. f_equal.
      rewrite filter_app. simpl. unfold has_key at 2. rewrite Hk.
      destruct (String.eqb_spec k k') as [->|_]; [contradiction|].
      now rewrite app_nil_r.
    + f_equal. f_equal. rewrite filter_app. simpl.
      unfold has_key at 2. rewrite Hk, String.eqb_refl.
      replace (filter (has_key k) ts) with (@nil txn); [reflexivity|].
      symmetry.
      destruct (filter (has_key k) ts) as [|u us] eqn:F; [reflexivity|].
      exfalso. apply H2. apply keys_of_In. exists u.
      assert (Hu : In u (filter (has_key k) ts)) by (rewrite F; now left).
      apply filter_In in Hu as [Hu1 Hu2]. split; [assumption|].
      now apply has_key_iff.
Qed.

Lemma fold_place_snoc (ts : list txn) (t : txn) (acc : merchant_groups) :
  fold_left place (ts ++ [t]) acc = place (fold_left place ts acc) t.
Proof. now rewrite fold_left_app. Qed.

(** The dictionary filled one transaction at a time is the partition by
    key, keys in order of first occurrence. *)
Lemma fold_place_grouped (ts : list txn) :
  Forall (fun t => key_of t <> None) ts ->
  fold_left place ts [] = grouped ts.
Proof.
  induction ts as [|t ts IH] using rev_ind; intros H; [reflexivity|].
  apply Forall_app in H as [Hts Ht]. inversion Ht as [|? ? Hk _]; subst.
  rewrite fold_place_snoc, (IH Hts). unfold place.
  destruct (key_of t) as [k|] eqn:E; [|contradiction].
  symmetry. now apply grouped_snoc.
Qed.

Lemma group_rows_fold (rows : list (Z * row)) (acc : merchant_groups) :
  Forall (fun p => merchant_key (description (snd p)) <> None) rows ->
  group_rows rows acc = Ok (fold_left place (map txn_of_pair rows) acc).
Proof.
  revert acc. induction rows as [|[ts r] rows IH]; intros acc H; [reflexivity|].
  inversion H as [|? ? Hk Hrest]; subst. simpl in Hk |- *.
  unfold place at 2, key_of, txn_of_pair at 2. simpl.
  unfold merchant_key in Hk |- *.
  destruct (PyStr.split (description r)) as [|m ms]; [contradiction|]. simpl.
  now apply IH.
Qed.

(** A description without a token stops the grouping loop. *)
Lemma group_rows_blank (rows : list (Z * row)) (acc : merchant_groups) :
  Exists (fun p => merchant_key (description (snd p)) = None) rows ->
  group_rows rows acc = Raise IndexError.
Proof.
  revert acc. induction rows as [|[ts r] rows IH]; intros acc H.
  - inversion H.
  - simpl. unfold merchant_key in *.
    destruct (PyStr.split (description r)) as [|m ms] eqn:E; [reflexivity|]. simpl.
    apply IH. inversion H as [? ? Hk|]; subst; [|assumption].
    simpl in Hk. rewrite E in Hk. discriminate.
Qed.

(** ** Arithmetic of the loop body *)

Lemma sum_amounts_numbers (cells : list amount_cell) (acc : Q) :
  Forall is_number cells ->
  exists total, sum_amounts acc cells = Ok total
                /\ (total == acc + fold_right Qplus 0 (values cells))%Q.
Proof.
  revert acc. induction cells as [|c cells IH]; intros acc H.
  - exists acc. split; [reflexivity|]. simpl. ring.
  - inversion H as [|? ? [q ->] Hrest]; subst. simpl.
    destruct (IH (acc + q)%Q Hrest) as [total [E Ht]].
    exists total. split; [assumption|]. rewrite Ht. ring.
Qed.


Lemma sum_amounts_error (cells : list amount_cell) (acc : Q) (e : error) :
  sum_amounts acc cells = Raise e -> e = TypeError.
Proof.
  revert acc. induction cells as [|[q|text] cells IH]; simpl; intros acc H.
  - discriminate.
  - eauto.
  - congruence.
Qed.

Lemma all_close_error (avg : Q) (cells : list amount_cell) (e : error) :
  all_close avg cells = Raise e -> e = TypeError.
Proof.
  induction cells as [|[q|text] cells IH]; cbn [all_close]; intros H.
  - discriminate.
  - destruct (Qle_bool (Qabs (q - avg)) 1); [auto|discriminate].
  - congruence.
Qed.

Lemma all_close_numbers (avg : Q) (cells : list amount_cell) :
  Forall is_number cells ->
  exists b, all_close avg cells = Ok b
            /\ (b = true <-> forall q, In q (values cells) -> (Qabs (q - avg) <= 1)%Q).
Proof.
  induction cells as [|c cells IH]; intros H.
  - exists true. split; [reflexivity|]. split; [intros _ q []|reflexivity].
  - inversion H as [|? ? [q ->] Hrest]; subst. cbn [all_close values flat_map app].
    destruct (Qle_bool (Qabs (q - avg)) 1) eqn:E.
    + destruct (IH Hrest) as [b [Eb Hb]]. exists b. split; [assumption|].
      rewrite Hb. split.
      * intros Hall q' [<-|Hq']; [now apply Qle_bool_iff|now apply Hall].
      * intros Hall q' Hq'. apply Hall. now right.
    + exists false. split; [reflexivity|]. split; [discriminate|].
      intros Hall. rewrite <- E. apply Qle_bool_iff, Hall. now left.
Qed.

Lemma values_length (cells : list amount_cell) :
  Forall is_number cells -> List.length (values cells) = List.length cells.
Proof.
  induction 1 as [|c cells [q Hq] _ IH]; [reflexivity|].
  subst c. simpl. now rewrite IH.
Qed.

Lemma true_div_error (x : Q) (n : nat) (e : error) :
  true_div x n = Raise e -> n = O.
Proof. destruct n; [reflexivity|discriminate]. Qed.

(** ** Intervals *)

Lemma intervals_of_length (g : list txn) :
  List.length (intervals_of g) = (List.length g - 1)%nat.
Proof.
  induction g as [|a [|b g] IH]; try reflexivity.
  change (intervals_of (a :: b :: g))
    with (Timestamp.days (txn_date b - txn_date a) :: intervals_of (b :: g)).
  simpl List.length in *. rewrite IH. lia.
Qed.

Lemma intervals_of_nth (g : list txn) (i : nat) (d : txn) :
  (S i < List.length g)%nat ->
  nth i (intervals_of g) 0 = gap g i d.
Proof.
  revert i. induction g as [|a [|b g] IH]; intros i Hi; simpl in Hi; try lia.
  change (intervals_of (a :: b :: g))
    with (Timestamp.days (txn_date b - txn_date a) :: intervals_of (b :: g)).
  destruct i as [|i]; [reflexivity|].
  change (nth (S i) (_ :: intervals_of (b :: g)) 0)
    with (nth i (intervals_of (b :: g)) 0).
  rewrite IH by (simpl; lia). reflexivity.
Qed.


Lemma interval_consistent_regular (g : list txn) :
  interval_consistent (intervals_of g) = true <-> interval_regular g.
Proof.
  unfold interval_consistent, interval_regular. rewrite forallb_forall. split.
  - intros H i d Hi.
    assert (Hin : In (gap g i d) (intervals_of g)).
    { rewrite <- intervals_of_nth by assumption.
      apply nth_In. rewrite intervals_of_length. lia. }
    specialize (H _ Hin). lia.
  - intros H x Hx.
    destruct g as [|d g]; [destruct Hx|].
    destruct (In_nth _ _ 0 Hx) as [i [Hi <-]].
    rewrite intervals_of_length in Hi.
    rewrite intervals_of_nth with (d := d) by lia.
    specialize (H i d ltac:(lia)). lia.
Qed.

(** ** The loop body *)

Lemma numeric_group_cells (g : list txn) :
  numeric_group g -> Forall is_number (map txn_amount g).
Proof. intros H. now apply Forall_map. Qed.

Lemma sum_amounts_ok_numbers (cells : list amount_cell) (acc total : Q) :
  sum_amounts acc cells = Ok total -> Forall is_number cells.
Proof.
  revert acc. induction cells as [|[q|text] cells IH]; simpl; intros acc H.
  - constructor.
  - constructor; [now exists q|eauto].
  - discriminate.
Qed.

Lemma examine_short (g : list txn) :
  (List.length g < 2)%nat -> examine g = Ok None.
Proof.
  intros H. unfold examine.
  destruct (Nat.ltb_spec (List.length g) 2); [reflexivity|lia].
Qed.

(** The loop body on a group of two or more that is in date order and whose
    amounts are numbers. *)
Lemma examine_eq (g : list txn) :
  ascending txn_date g -> numeric_group g -> (2 <= List.length g)%nat ->
  exists avg b first rest,
    g = first :: rest
    /\ (avg == mean (numbers g))%Q
    /\ (b = true <-> forall q, In q (numbers g) -> (Qabs (q - avg) <= 1)%Q)
    /\ examine g
       = Ok (if b && interval_consistent (intervals_of g)
             then Some {|
               Service := full_description first;
               Monthly_Cost := "$" ++ Fmt.fixed2 avg;
               Frequency :=
                 "Every ~"
                 ++ Fmt.decimal
                      (Fmt.py_int (inject_Z (sum_Z (intervals_of g))
                                   / inject_Z (Z.of_nat (List.length (intervals_of g)))))
                 ++ " days";
               Category := txn_category first;
               Times_Charged := List.length g;
               Last_Charge := Timestamp.strftime_ymd (txn_date (last g first));
               Annual_Cost := "$" ++ Fmt.fixed2 (avg * 12);
               cost_numeric := avg
             |}
             else None).
Proof.
  intros Hasc Hnum Hlen. unfold examine.
  destruct (Nat.ltb_spec (List.length g) 2) as [Hlt|_]; [lia|].
  rewrite (sort_by_ascending_id _ _ Hasc).
  pose proof (numeric_group_cells g Hnum) as Hcells.
  destruct (sum_amounts_numbers _ 0%Q Hcells) as [total [Esum Htotal]].
  rewrite Esum. cbn [bind].
  rewrite length_map.
  destruct g as [|first rest] eqn:Eg; [simpl in Hlen; lia|]. rewrite <- Eg in *.
  assert (Ediv : true_div total (List.length g)
                 = Ok (total / inject_Z (Z.of_nat (List.length g)))%Q).
  { rewrite Eg. reflexivity. }
  rewrite Ediv. cbn [bind].
  set (avg := (total / inject_Z (Z.of_nat (List.length g)))%Q).
  destruct (all_close_numbers avg _ Hcells) as [b [Eclose Hb]].
  rewrite Eclose. cbn [bind].
  exists avg, b, first, rest.
  split; [exact Eg|]. split; [|split; [exact Hb|]].
  - unfold avg, mean, numbers.
    rewrite values_length, length_map by assumption.
    rewrite Htotal. now rewrite Qplus_0_l.
  - destruct (intervals_of g) as [|i more] eqn:Ei.
    + pose proof (intervals_of_length g) as L. rewrite Ei in L. simpl in L. lia.
    + cbn [true_div List.length bind].
      destruct (b && interval_consistent (i :: more)); [|reflexivity].
      rewrite Eg. reflexivity.
Qed.

Lemma examine_error (g : list txn) (e : error) :
  examine g = Raise e -> e = TypeError.
Proof.
  unfold examine.
  destruct (Nat.ltb_spec (List.length g) 2) as [Hlt|Hge]; [discriminate|].
  destruct (sum_amounts 0 _) as [total|e1] eqn:Esum; cbn [bind].
  2:{ intros H. injection H as <-. eapply sum_amounts_error; eauto. }
  rewrite length_map, sort_by_length.
  destruct (List.length g) as [|n] eqn:En; [lia|]. cbn [true_div bind].
  destruct (all_close _ _) as [b|e1] eqn:Eclose; cbn [bind].
  2:{ intros H. injection H as <-. eapply all_close_error; eauto. }
  destruct (intervals_of _) as [|i more]; [discriminate|].
  cbn [true_div List.length bind].
  destruct (b && _); [|discriminate].
  destruct (sort_by txn_date g) as [|first rest] eqn:Es; [|discriminate].
  pose proof (sort_by_length txn_date g) as L. rewrite Es, En in L. discriminate.
Qed.


Lemma examine_some_numeric (g : list txn) (s : subscription) :
  examine g = Ok (Some s) -> numeric_group g /\ (2 <= List.length g)%nat.
Proof.
  unfold examine.
  destruct (Nat.ltb_spec (List.length g) 2) as [Hlt|Hge]; [discriminate|].
  destruct (sum_amounts 0 _) as [total|e1] eqn:Esum; [|discriminate].
  intros _. split; [|assumption].
  apply sum_amounts_ok_numbers in Esum.
  unfold numeric_group. rewrite Forall_forall in *. intros t Ht.
  apply Esum, in_map. now apply sort_by_In.
Qed.

Lemma numbers_In (g : list txn) (q : Q) :
  In q (numbers g) <-> exists t, In t g /\ txn_amount t = Num q.
Proof.
  unfold numbers, values. rewrite in_flat_map. split.
  - intros [c [Hc Hq]]. apply in_map_iff in Hc as [t [<- Ht]].
    exists t. split; [assumption|].
    destruct (txn_amount t) as [q'|]; [|destruct Hq].
    destruct Hq as [->|[]]. reflexivity.
  - intros [t [Ht E]]. exists (Num q). split; [|now left].
    rewrite <- E. now apply in_map.
Qed.

Lemma amount_stable_iff (g : list txn) (avg : Q) :
  numeric_group g -> (avg == mean (numbers g))%Q ->
  amount_stable g <-> (forall q, In q (numbers g) -> (Qabs (q - avg) <= 1)%Q).
Proof.
  intros Hnum Havg. unfold amount_stable. split.
  - intros H q Hq. apply numbers_In in Hq as [t [Ht E]].
    destruct (H t Ht) as [q' [E' Hq']]. rewrite E in E'. injection E' as <-.
    now rewrite Havg.
  - intros H t Ht. unfold numeric_group in Hnum. rewrite Forall_forall in Hnum.
    destruct (Hnum t Ht) as [q E]. exists q. split; [assumption|].
    rewrite <- Havg. apply H, numbers_In. now exists t.
Qed.

(** The loop body appends a record exactly for the groups the design
    document calls recurring. *)
Lemma examine_recurring (g : list txn) :
  ascending txn_date g -> numeric_group g ->
  (exists s, examine g = Ok (Some s)) <-> recurring g.
Proof.
  intros Hasc Hnum. unfold recurring.
  destruct (Nat.ltb_spec (List.length g) 2) as [Hlt|Hge].
  - rewrite examine_short by assumption. split.
    + intros [s H]. discriminate.
    + intros [H _]. lia.
  - destruct (examine_eq g Hasc Hnum Hge) as (avg & b & first & rest & Eg & Havg & Hb & E).
    rewrite E, <- interval_consistent_regular, (amount_stable_iff g avg Hnum Havg), <- Hb.
    destruct b, (interval_consistent (intervals_of g)); simpl; split;
      try (intros [s H]; discriminate); try (intros (_ & H1 & H2); discriminate);
      eauto.
Qed.

Lemma examine_numeric_ok (g : list txn) :
  ascending txn_date g -> numeric_group g -> exists o, examine g = Ok o.
Proof.
  intros Hasc Hnum.
  destruct (Nat.ltb_spec (List.length g) 2) as [Hlt|Hge].
  - exists None. now apply examine_short.
  - destruct (examine_eq g Hasc Hnum Hge) as (avg & b & first & rest & _ & _ & _ & E).
    rewrite E. eauto.
Qed.

(** ** The loop over the groups *)

Lemma scan_groups_emitted (gs : merchant_groups) (acc : list subscription) :
  Forall (fun g => exists o, examine (snd g) = Ok o) gs ->
  scan_groups gs acc = Ok (acc ++ flat_map (fun g => emitted (snd g)) gs)%list.
Proof.
  revert acc. induction gs as [|[k g] gs IH]; intros acc H; simpl.
  - now rewrite app_nil_r.
  - inversion H as [|? ? [o Eo] Hrest]; subst. simpl in Eo.
    unfold emitted at 1. rewrite Eo. cbn [bind].
    destruct o as [s|]; rewrite (IH _ Hrest).
    + now rewrite <- app_assoc.
    + reflexivity.
Qed.

Lemma scan_groups_ok (gs : merchant_groups) (acc subs : list subscription) :
  scan_groups gs acc = Ok subs ->
  subs = (acc ++ flat_map (fun g => emitted (snd g)) gs)%list
  /\ Forall (fun g => exists o, examine (snd g) = Ok o) gs.
Proof.
  revert acc. induction gs as [|[k g] gs IH]; intros acc; simpl.
  - intros H. injection H as <-. now rewrite app_nil_r.
  - unfold emitted at 1.
    destruct (examine g) as [[s|]|e1] eqn:E; cbn [bind]; [| |discriminate];
      intros H; destruct (IH _ H) as [-> Hall]; split;
      try (constructor; [simpl; eauto|assumption]).
    + now rewrite <- app_assoc.
    + reflexivity.
Qed.

Lemma scan_groups_error (gs : merchant_groups) (acc : list subscription) (e : error) :
  scan_groups gs acc = Raise e -> e = TypeError.
Proof.
  revert acc. induction gs as [|[k g] gs IH]; intros acc; simpl; [discriminate|].
  destruct (examine g) as [[s|]|e1] eqn:E; cbn [bind]; eauto.
  intros H. injection H as <-. eapply examine_error; eauto.
Qed.


(** ** Groups of a sorted stream *)

Lemma grouped_In (ts : list txn) (k : string) (g : list txn) :
  In (k, g) (grouped ts) <-> In k (keys_of ts) /\ g = filter (has_key k) ts.
Proof.
  unfold grouped. rewrite in_map_iff. split.
  - intros [k' [E Hk']]. injection E as <- <-. now split.
  - intros [Hk ->]. now exists k.
Qed.

Lemma filter_numeric (p : txn -> bool) (ts : list txn) :
  numeric_group ts -> numeric_group (filter p ts).
Proof.
  unfold numeric_group. rewrite !Forall_forall. intros H t Ht.
  apply filter_In in Ht as [Ht _]. now apply H.
Qed.

Lemma flat_map_emitted_grouped (ts : list txn) :
  flat_map (fun g : string * list txn => emitted (snd g)) (grouped ts)
  = flat_map (fun k => emitted (filter (has_key k) ts)) (keys_of ts).
Proof.
  unfold grouped. rewrite flat_map_concat_map, map_map, <- flat_map_concat_map.
  reflexivity.
Qed.

(** ** The fields of an emitted record *)

Lemma sum_Z_fold_right (l : list Z) : sum_Z l = fold_right Z.add 0 l.
Proof.
  unfold sum_Z. apply fold_symmetric; intros; lia.
Qed.

Lemma py_int_div (x : Z) (n : nat) :
  (0 < n)%nat ->
  Fmt.py_int (inject_Z x / inject_Z (Z.of_nat n)) = Z.quot x (Z.of_nat n).
Proof.
  intros Hn. destruct n as [|n]; [lia|].
  unfold Fmt.py_int, Qdiv, Qinv, Qmult, inject_Z.
  rewrite Nat2Z.inj_succ. unfold Z.succ.
  destruct (Z.of_nat n + 1) as [|q|q] eqn:E; try lia.
  simpl Qnum. simpl Qden. now rewrite Z.mul_1_r.
Qed.

Lemma sum_bounds (l : list Z) :
  Forall (fun i => 25 <= i <= 35) l ->
  25 * Z.of_nat (List.length l) <= fold_right Z.add 0 l <= 35 * Z.of_nat (List.length l).
Proof.
  induction 1 as [|i l Hi _ IH]; [simpl; lia|].
  cbn [fold_right List.length]. rewrite Nat2Z.inj_succ. lia.
Qed.

(** The mean of intervals that all lie in 25..35, cut to an integer, is
    their floored mean and lies in 25..35 as well. *)
Lemma mean_interval_floor (l : list Z) :
  l <> [] -> interval_consistent l = true ->
  Fmt.py_int (inject_Z (sum_Z l) / inject_Z (Z.of_nat (List.length l)))
  = floor_mean l
  /\ 25 <= floor_mean l <= 35.
Proof.
  intros Hne Hc.
  assert (Hlen : (0 < List.length l)%nat) by (destruct l; [contradiction|simpl; lia]).
  assert (Hall : Forall (fun i => 25 <= i <= 35) l).
  { unfold interval_consistent in Hc. rewrite forallb_forall in Hc.
    apply Forall_forall. intros i Hi. specialize (Hc i Hi). lia. }
  apply sum_bounds in Hall.
  rewrite py_int_div by assumption. rewrite sum_Z_fold_right. unfold floor_mean.
  split.
  - apply Z.quot_div_nonneg; lia.
  - split.
    + apply Z.div_le_lower_bound; lia.
    + apply Z.div_le_upper_bound; lia.
Qed.





(** What the loop body appends, and when. *)
Lemma examine_fields (g : list txn) (s : subscription) :
  ascending txn_date g -> examine g = Ok (Some s) ->
  exists avg first rest,
    g = first :: rest
    /\ (avg == mean (numbers g))%Q
    /\ recurring g
    /\ s = {|
         Service := full_description first;
         Monthly_Cost := "$" ++ Fmt.fixed2 avg;
         Frequency := "Every ~" ++ Fmt.decimal (floor_mean (intervals_of g)) ++ " days";
         Category := txn_category first;
         Times_Charged := List.length g;
         Last_Charge := Timestamp.strftime_ymd (txn_date (last g first));
         Annual_Cost := "$" ++ Fmt.fixed2 (avg * 12);
         cost_numeric := avg
       |}.
Proof.
  intros Hasc E.
  destruct (examine_some_numeric g s E) as [Hnum Hlen].
  assert (Hrec : recurring g) by (apply examine_recurring; eauto).
  destruct (examine_eq g Hasc Hnum Hlen) as (avg & b & first & rest & Eg & Havg & Hb & E').
  rewrite E in E'.
  destruct (b && interval_consistent (intervals_of g)) eqn:Ec; [|discriminate].
  apply andb_true_iff in Ec as [_ Hic].
  assert (Hne : intervals_of g <> []).
  { intros Hnil. pose proof (intervals_of_length g) as L. rewrite Hnil in L.
    simpl in L. lia. }
  destruct (mean_interval_floor _ Hne Hic) as [Hfloor _].
  rewrite Hfloor in E'. injection E' as ->.
  exists avg, first, rest.
  split; [exact Eg|]. split; [exact Havg|]. split; [exact Hrec|reflexivity].
Qed.

(** ** Reordering *)






(** ** Exceptions of the two loops *)

Lemma group_rows_error (rows : list (Z * row)) (acc : merchant_groups) (e : error) :
  group_rows rows acc = Raise e -> e = IndexError.
Proof.
  revert acc. induction rows as [|[ts r] rows IH]; intros acc; simpl; [discriminate|].
  destruct (PyStr.split (description r)) as [|m ms]; simpl.
  - congruence.
  - apply IH.
Qed.

(** ** The detector on a frame *)

Section Properties.

Variable parse_datetime : string -> option Z.

Local Abbreviation stamp_of := (stamp_of parse_datetime).
Local Abbreviation transaction_of := (transaction_of parse_datetime).
Local Abbreviation charges := (charges parse_datetime).
Local Abbreviation stream := (stream parse_datetime).
Local Abbreviation convert_row := (convert_row parse_datetime).
Local Abbreviation merchant_group := (merchant_group parse_datetime).
Local Abbreviation dates_parse := (dates_parse parse_datetime).
Local Abbreviation well_formed := (well_formed parse_datetime).
Local Abbreviation to_datetime_from := (to_datetime_from parse_datetime).
Local Abbreviation to_datetime := (to_datetime parse_datetime).
Local Abbreviation detect_subscriptions := (detect_subscriptions parse_datetime).

Lemma to_datetime_from_ok (df : DataFrame) (position : nat) :
  dates_parse df ->
  exists stamps,
    to_datetime_from position (map date df) = Ok stamps
    /\ map txn_of_pair (combine stamps df) = charges df
    /\ assign_date df stamps = map convert_row df.
Proof.
  revert position. induction df as [|r df IH]; intros position H.
  - exists []. repeat split.
  - inversion H as [|? ? Hr Hdf]; subst.
    destruct (IH (S position) Hdf) as (stamps & E & Hc & Ha).
    destruct (stamp_of (date r)) as [ts|] eqn:Er; [|contradiction].
    exists (ts :: stamps).
    assert (Hrow : map txn_of_pair (combine (ts :: stamps) (r :: df)) = charges (r :: df)
                   /\ assign_date (r :: df) (ts :: stamps) = map convert_row (r :: df)).
    { split.
      - simpl. unfold charges at 1. simpl.
        unfold transaction_of at 1. rewrite Er. simpl.
        f_equal. exact Hc.
      - simpl. unfold convert_row at 1. rewrite Er. f_equal. exact Ha. }
    split; [|exact Hrow].
    simpl in Er |- *. destruct (date r) as [text|ts0]; simpl in Er.
    + rewrite Er, E. reflexivity.
    + injection Er as ->. rewrite E. reflexivity.
Qed.

(** The first cell that does not parse stops the conversion, and the error
    carries its position and text. *)
Lemma to_datetime_from_fail (df : DataFrame) (position : nat) :
  Exists (fun r => stamp_of (date r) = None) df ->
  exists i text,
    to_datetime_from position (map date df) = Raise (DateParseError (position + i) text)
    /\ nth_error (map date df) i = Some (DateText text)
    /\ parse_datetime text = None.
Proof.
  revert position. induction df as [|r df IH]; intros position H; [inversion H|].
  simpl. destruct (date r) as [text|ts] eqn:Er.
  - destruct (parse_datetime text) as [ts|] eqn:Ep.
    + assert (Hdf : Exists (fun r => stamp_of (date r) = None) df).
      { inversion H as [? ? Hr|]; subst; [|assumption].
        rewrite Er in Hr. simpl in Hr. congruence. }
      destruct (IH (S position) Hdf) as (i & text' & E & Hn & Hp).
      exists (S i), text'. rewrite E. cbn [bind].
      replace (position + S i)%nat with (S position + i)%nat by lia.
      now repeat split.
    + exists O, text. rewrite Nat.add_0_r. now repeat split.
  - assert (Hdf : Exists (fun r => stamp_of (date r) = None) df).
    { inversion H as [? ? Hr|]; subst; [|assumption].
      rewrite Er in Hr. discriminate. }
    destruct (IH (S position) Hdf) as (i & text' & E & Hn & Hp).
    exists (S i), text'. rewrite E. cbn [bind].
    replace (position + S i)%nat with (S position + i)%nat by lia.
    now repeat split.
Qed.

Lemma to_datetime_from_parse (df : DataFrame) (position : nat) (stamps : list Z) :
  to_datetime_from position (map date df) = Ok stamps -> dates_parse df.
Proof.
  intros E. unfold dates_parse. apply Forall_forall. intros r Hr Hnone.
  assert (Hex : Exists (fun r => stamp_of (date r) = None) df)
    by (apply Exists_exists; eauto).
  destruct (to_datetime_from_fail df position Hex) as (i & text & E' & _).
  congruence.
Qed.

Lemma charges_keys (df : DataFrame) :
  described df -> Forall (fun t => key_of t <> None) (charges df).
Proof.
  unfold described. rewrite !Forall_forall. intros H t Ht.
  apply in_flat_map in Ht as [r [Hr Ht]].
  unfold transaction_of in Ht.
  destruct (stamp_of (date r)); simpl in Ht; [|contradiction].
  destruct Ht as [<-|[]]. unfold key_of. simpl. now apply H.
Qed.

Lemma charges_numeric (df : DataFrame) :
  numeric df -> numeric_group (charges df).
Proof.
  unfold numeric, numeric_group. rewrite !Forall_forall. intros H t Ht.
  apply in_flat_map in Ht as [r [Hr Ht]].
  unfold transaction_of in Ht.
  destruct (stamp_of (date r)); simpl in Ht; [|contradiction].
  destruct Ht as [<-|[]]. simpl. now apply H.
Qed.

Lemma sorted_rows_stream (df : DataFrame) (stamps : list Z) :
  map txn_of_pair (combine stamps df) = charges df ->
  map txn_of_pair (sort_values df stamps) = stream df.
Proof.
  intros H. unfold sort_values, stream.
  rewrite <- H. symmetry. apply (sort_by_map txn_date txn_of_pair).
Qed.

Lemma stream_keys (df : DataFrame) :
  described df -> Forall (fun t => key_of t <> None) (stream df).
Proof.
  intros H. apply charges_keys in H. rewrite Forall_forall in *.
  intros t Ht. apply H. now apply sort_by_In in Ht.
Qed.

(** With dates that convert, the caller's frame gets its date column
    replaced, and the outcome is that of the two loops on the sorted frame. *)
Lemma detect_converted (df : DataFrame) :
  dates_parse df ->
  exists stamps,
    map txn_of_pair (combine stamps df) = charges df
    /\ detect_subscriptions df
       = (map convert_row df,
          groups <- group_rows (sort_values df stamps) [] ;; scan_groups groups []).
Proof.
  intros H. destruct (to_datetime_from_ok df 0 H) as (stamps & E & Hc & Ha).
  exists stamps. split; [assumption|].
  unfold detect_subscriptions, to_datetime. now rewrite E, Ha.
Qed.

(** With descriptions that have a first token as well, the groups are the
    partition of the date-ordered transactions by merchant key. *)
Lemma detect_stream (df : DataFrame) :
  dates_parse df -> described df ->
  snd (detect_subscriptions df) = scan_groups (grouped (stream df)) [].
Proof.
  intros Hd Hk. destruct (detect_converted df Hd) as (stamps & Hc & E).
  rewrite E. cbn [snd].
  pose proof (sorted_rows_stream df stamps Hc) as Hs.
  rewrite group_rows_fold.
  - cbn [bind]. rewrite Hs. now rewrite fold_place_grouped by now apply stream_keys.
  - pose proof (stream_keys df Hk) as Hkeys. rewrite <- Hs in Hkeys.
    rewrite Forall_map in Hkeys. exact Hkeys.
Qed.

Lemma stream_group (df : DataFrame) (k : string) :
  filter (has_key k) (stream df) = merchant_group df k.
Proof. apply filter_sort_by. Qed.

Lemma merchant_group_ascending (df : DataFrame) (k : string) :
  ascending txn_date (merchant_group df k).
Proof. apply sort_by_ascending. Qed.

Lemma merchant_group_numeric (df : DataFrame) (k : string) :
  numeric df -> numeric_group (merchant_group df k).
Proof.
  intros H. apply charges_numeric in H.
  unfold numeric_group in *. rewrite Forall_forall in *. intros t Ht.
  apply sort_by_In, filter_In in Ht as [Ht _]. now apply H.
Qed.

(** On a well-formed frame the detector returns, for each merchant key in
    order of first occurrence in the date-ordered stream, what the loop body
    appends for that merchant's group. *)
Lemma detect_well_formed (df : DataFrame) :
  well_formed df ->
  snd (detect_subscriptions df)
  = Ok (flat_map (fun k => emitted (merchant_group df k)) (keys_of (stream df))).
Proof.
  intros (Hd & Hk & Hn). rewrite (detect_stream df Hd Hk).
  rewrite scan_groups_emitted.
  - simpl. rewrite flat_map_emitted_grouped. f_equal.
    apply flat_map_ext. intros k. now rewrite stream_group.
  - apply Forall_forall. intros [k g] Hg. apply grouped_In in Hg as [_ ->].
    simpl. rewrite stream_group.
    apply examine_numeric_ok;
      [apply merchant_group_ascending|now apply merchant_group_numeric].
Qed.

Lemma charges_blank (df : DataFrame) :
  dates_parse df ->
  Exists (fun r => merchant_key (description r) = None) df ->
  Exists (fun t => key_of t = None) (charges df).
Proof.
  intros Hd Hex. apply Exists_exists in Hex as [r [Hr Hk]].
  unfold dates_parse in Hd. rewrite Forall_forall in Hd. specialize (Hd r Hr).
  destruct (stamp_of (date r)) as [ts|] eqn:E; [|contradiction].
  apply Exists_exists.
  exists (mkTxn ts (amount r) (description r) (category r)). split; [|exact Hk].
  apply in_flat_map. exists r. split; [assumption|].
  unfold transaction_of. rewrite E. now left.
Qed.

(** A description without a first token, among dates that convert, raises
    [IndexError]. *)
Lemma detect_blank (df : DataFrame) :
  dates_parse df ->
  Exists (fun r => merchant_key (description r) = None) df ->
  snd (detect_subscriptions df) = Raise IndexError.
Proof.
  intros Hd Hex. destruct (detect_converted df Hd) as (stamps & Hc & E).
  rewrite E. cbn [snd]. rewrite group_rows_blank; [reflexivity|].
  pose proof (sorted_rows_stream df stamps Hc) as Hs.
  apply charges_blank in Hex; [|assumption].
  assert (Hst : Exists (fun t => key_of t = None) (stream df)).
  { apply Exists_exists in Hex as [t [Ht Hk]]. apply Exists_exists.
    exists t. split; [|assumption]. now apply sort_by_In. }
  rewrite <- Hs in Hst. apply Exists_exists in Hst as [t [Ht Hk]].
  apply in_map_iff in Ht as [p [<- Hp]].
  apply Exists_exists. exists p. now split.
Qed.

Lemma described_dec (df : DataFrame) :
  {described df} + {Exists (fun r => merchant_key (description r) = None) df}.
Proof.
  unfold described.
  assert (Hdec : forall r : row,
             {merchant_key (description r) <> None}
             + {~ merchant_key (description r) <> None}).
  { intros r. destruct (merchant_key (description r)).
    - left. discriminate.
    - right. intros H. now apply H. }
  destruct (Forall_Exists_dec _ Hdec df) as [H|H]; [now left|right].
  eapply Exists_impl; [|exact H]. simpl. intros r Hr.
  destruct (merchant_key (description r)); [exfalso; apply Hr; discriminate|reflexivity].
Qed.

(** Whenever the detector returns, it returns, for each merchant key in
    order of first occurrence in the date-ordered stream, what the loop body
    appends for that merchant's group. *)
Lemma detect_ok (df : DataFrame) (subs : list subscription) :
  snd (detect_subscriptions df) = Ok subs ->
  dates_parse df /\ described df
  /\ subs = flat_map (fun k => emitted (filter (has_key k) (stream df)))
                     (keys_of (stream df))
  /\ Forall (fun g => exists o, examine (snd g) = Ok o) (grouped (stream df)).
Proof.
  intros H.
  assert (Hd : dates_parse df).
  { unfold detect_subscriptions, to_datetime in H.
    destruct (to_datetime_from 0 (map date df)) as [stamps|e] eqn:E;
      [|discriminate].
    eapply to_datetime_from_parse; eauto. }
  assert (Hk : described df).
  { destruct (described_dec df) as [Hk|Hex]; [assumption|].
    rewrite (detect_blank df Hd Hex) in H. discriminate. }
  repeat split; try assumption.
  - rewrite (detect_stream df Hd Hk) in H.
    apply scan_groups_ok in H as [-> _]. simpl.
    now rewrite flat_map_emitted_grouped.
  - rewrite (detect_stream df Hd Hk) in H.
    now apply scan_groups_ok in H as [_ Hall].
Qed.

Lemma group_key (df : DataFrame) (k : string) (t : txn) :
  In t (merchant_group df k) -> key_of t = Some k /\ In t (stream df).
Proof.
  intros Ht. rewrite <- stream_group in Ht. apply filter_In in Ht as [Ht Hk].
  split; [now apply has_key_iff|assumption].
Qed.

Lemma emitted_record (df : DataFrame) (subs : list subscription) (s : subscription) :
  snd (detect_subscriptions df) = Ok subs -> In s subs ->
  exists k, In k (keys_of (stream df)) /\ examine (merchant_group df k) = Ok (Some s).
Proof.
  intros H Hs. apply detect_ok in H as (_ & _ & -> & _).
  apply in_flat_map in Hs as [k [Hk Hs]]. exists k. split; [assumption|].
  rewrite stream_group in Hs. unfold emitted in Hs.
  destruct (examine (merchant_group df k)) as [[s'|]|e]; try destruct Hs.
  - now subst.
  - contradiction.
Qed.

Lemma record_emitted (df : DataFrame) (subs : list subscription) (k : string)
      (s : subscription) :
  snd (detect_subscriptions df) = Ok subs ->
  examine (merchant_group df k) = Ok (Some s) -> In s subs.
Proof.
  intros H E. apply detect_ok in H as (_ & _ & -> & _).
  apply in_flat_map. exists k. split.
  - destruct (examine_some_numeric _ _ E) as [_ Hlen].
    destruct (merchant_group df k) as [|t g] eqn:Eg; [simpl in Hlen; lia|].
    assert (Ht : In t (merchant_group df k)) by (rewrite Eg; now left).
    apply group_key in Ht as [Hk Ht]. apply keys_of_In. eauto.
  - rewrite stream_group. unfold emitted. rewrite E. now left.
Qed.

(** The record of a group carries the group's key in its service name. *)
Lemma record_key (df : DataFrame) (k : string) (s : subscription) :
  examine (merchant_group df k) = Ok (Some s) ->
  merchant_key (Service s) = Some k.
Proof.
  intros E.
  destruct (examine_fields _ _ (merchant_group_ascending df k) E)
    as (avg & first & rest & Eg & _ & _ & ->).
  simpl. assert (Hf : In first (merchant_group df k)) by (rewrite Eg; now left).
  now apply group_key in Hf as [Hf _].
Qed.






(** C8.  On the empty frame the detector returns the empty list and leaves
    the frame empty; that outcome is not an exception. *)
Theorem empty_input :
  detect_subscriptions [] = ([], Ok [])
  /\ forall e, snd (detect_subscriptions []) <> Raise e.
Proof.
  split; [reflexivity|]. intros e. discriminate.
Qed.

Lemma to_datetime_from_error (column : list date_cell) (position : nat) (e : error) :
  to_datetime_from position column = Raise e ->
  exists i text, e = DateParseError i text.
Proof.
  revert position. induction column as [|[text|ts] column IH]; intros position; simpl.
  - discriminate.
  - destruct (parse_datetime text).
    + destruct (to_datetime_from (S position) column) eqn:E; cbn [bind];
        [discriminate|].
      intros H. injection H as <-. eauto.
    + intros H. injection H as <-. eauto.
  - destruct (to_datetime_from (S position) column) eqn:E; cbn [bind];
      [discriminate|].
    intros H. injection H as <-. eauto.
Qed.

(** The three ways the detector can raise; none is a division by zero. *)
Lemma detect_error (df : DataFrame) (e : error) :
  snd (detect_subscriptions df) = Raise e ->
  e = TypeError \/ e = IndexError \/ exists i text, e = DateParseError i text.
Proof.
  unfold detect_subscriptions, to_datetime.
  destruct (to_datetime_from 0 (map date df)) as [stamps|e0] eqn:E; cbn [snd].
  - destruct (group_rows (sort_values df stamps) []) as [groups|e1] eqn:Eg; cbn [bind].
    + intros H. left. eapply scan_groups_error; eauto.
    + intros H. injection H as <-. right. left. eapply group_rows_error; eauto.
  - intros H. injection H as <-. right. right. eapply to_datetime_from_error; eauto.
Qed.

Lemma never_zero_division (df : DataFrame) :
  snd (detect_subscriptions df) <> Raise ZeroDivisionError.
Proof.
  intros H. apply detect_error in H as [H|[H|(i & text & H)]]; discriminate.
Qed.

(** C9.  On a well-formed frame the detector returns; every group that
    reaches the two means has two transactions or more, so neither division
    has a zero divisor. *)
Theorem arithmetic_total (df : DataFrame) :
  well_formed df ->
  (exists subs, snd (detect_subscriptions df) = Ok subs)
  /\ (forall k x,
        (2 <= List.length (merchant_group df k))%nat ->
        true_div x (List.length (map txn_amount (merchant_group df k)))
          <> Raise ZeroDivisionError
        /\ intervals_of (merchant_group df k) <> []
        /\ true_div x (List.length (intervals_of (merchant_group df k)))
             <> Raise ZeroDivisionError).
Proof.
  intros Hwf. split.
  - rewrite (detect_well_formed df Hwf). eauto.
  - intros k x Hlen.
    rewrite length_map, intervals_of_length.
    destruct (List.length (merchant_group df k)) as [|[|n]] eqn:E; try lia.
    repeat split; try discriminate.
    intros Hnil. pose proof (intervals_of_length (merchant_group df k)) as L.
    rewrite Hnil, E in L. discriminate.
Qed.









End Properties.

(** * Concrete runs *)

Example split_words :
  PyStr.split "  Netflix  Premium plan " = ["Netflix"; "Premium"; "plan"].
Proof. reflexivity. Qed.

Example split_blank : PyStr.split "   " = [].
Proof. reflexivity. Qed.

Example fixed2_round : Fmt.fixed2 (120024 # 1000) = "120.02".
Proof. reflexivity. Qed.

Example fixed2_small_negative : Fmt.fixed2 (- (1 # 1000)) = "-0.00".
Proof. reflexivity. Qed.

Example fixed2_tie : Fmt.fixed2 (1 # 8) = "0.12".
Proof. reflexivity. Qed.

Example iso_epoch : Iso.parse "1970-01-01" = Some 0.
Proof. reflexivity. Qed.

Example iso_2024 : Iso.parse "2024-03-01" = Some (Timestamp.of_day 19783).
Proof. reflexivity. Qed.

Example iso_bad : Iso.parse "2023-02-29" = None.
Proof. reflexivity. Qed.

Example strftime_2024 :
  Timestamp.strftime_ymd (Timestamp.of_day 19783 + 5) = "2024-03-01".
Proof. reflexivity. Qed.

(** Scenario A of the design document. *)
Example netflix_detected :
  exists s,
    Scenario.records Scenario.netflix = [s]
    /\ Service s = "Netflix" /\ Monthly_Cost s = "$15.99"
    /\ Frequency s = "Every ~30 days" /\ Category s = "Entertainment"
    /\ Times_Charged s = 3%nat /\ Last_Charge s = "2024-03-01"
    /\ Annual_Cost s = "$191.88" /\ (cost_numeric s == 1599 # 100)%Q.
Proof. eexists. repeat split. Qed.

Example scenarios_b_c_e :
  snd (detect_subscriptions Iso.parse Scenario.ten_days_apart) = Ok []
  /\ snd (detect_subscriptions Iso.parse Scenario.price_jump) = Ok []
  /\ snd (detect_subscriptions Iso.parse Scenario.single_charge) = Ok [].
Proof. repeat split. Qed.



Lemma netflix_well_formed : well_formed Iso.parse Scenario.netflix.
Proof.
  repeat split; repeat constructor; try discriminate; eexists; reflexivity.
Defined.




Lemma gym_returns :
  snd (detect_subscriptions Iso.parse Scenario.gym) = Ok (Scenario.records Scenario.gym).
Proof. vm_compute. reflexivity. Defined.




Lemma arithmetic_total_witness :
  well_formed Iso.parse Scenario.netflix
  /\ exists subs, snd (detect_subscriptions Iso.parse Scenario.netflix) = Ok subs.
Proof.
  split; [exact netflix_well_formed|].
  exact (proj1 (arithmetic_total Iso.parse Scenario.netflix netflix_well_formed)).
Defined.





(** C4.  A description of three spaces has no first token, and the
    detector raises [IndexError] on it. *)
Theorem blank_description_raises :
  PyStr.split "   " = []
  /\ snd (detect_subscriptions Iso.parse Scenario.blank_description) = Raise IndexError.
Proof. split; reflexivity. Qed.



(** * Further properties *)

(** ** The merchant key *)



Lemma no_space_app (a b : string) :
  no_space (a ++ b) = no_space a && no_space b.
Proof.
  induction a as [|x a IH]; simpl; [reflexivity|].
  rewrite IH. now rewrite andb_assoc.
Qed.






(** ** When the detector returns, and what it raises *)

Section Outcome.

Variable parse_datetime : string -> option Z.

Local Abbreviation merchant_group := (merchant_group parse_datetime).
Local Abbreviation stream := (stream parse_datetime).
Local Abbreviation charges := (charges parse_datetime).
Local Abbreviation dates_parse := (dates_parse parse_datetime).
Local Abbreviation detect_subscriptions := (detect_subscriptions parse_datetime).
Local Abbreviation first_charge := (first_charge parse_datetime).
Local Abbreviation convert_row := (convert_row parse_datetime).
Local Abbreviation stamp_of := (stamp_of parse_datetime).
Local Abbreviation transaction_of := (transaction_of parse_datetime).




(** ** One record per merchant, in order of first charge *)

Lemma emitted_short (g : list txn) : (List.length (emitted g) <= 1)%nat.
Proof.
  unfold emitted. destruct (examine g) as [[s|]|e]; simpl; lia.
Qed.

Lemma emitted_key (df : DataFrame) (k : string) (s : subscription) :
  In s (emitted (merchant_group df k)) -> merchant_key (Service s) = Some k.
Proof.
  unfold emitted. intros H.
  destruct (examine (merchant_group df k)) as [[s'|]|e] eqn:E; try destruct H.
  - subst. eapply record_key; eauto.
  - contradiction.
Qed.

Lemma detect_listing (df : DataFrame) (subs : list subscription) :
  snd (detect_subscriptions df) = Ok subs ->
  subs = flat_map (fun k => emitted (merchant_group df k)) (keys_of (stream df)).
Proof.
  intros H. destruct (detect_ok parse_datetime df subs H) as (_ & _ & -> & _).
  apply flat_map_ext. intros k. now rewrite (stream_group parse_datetime).
Qed.

Lemma flat_map_keys_NoDup (E : string -> list subscription) (ks : list string) :
  NoDup ks ->
  (forall k s, In s (E k) -> merchant_key (Service s) = Some k) ->
  (forall k, (List.length (E k) <= 1)%nat) ->
  NoDup (map (fun s => merchant_key (Service s)) (flat_map E ks)).
Proof.
  intros Hnd Hkey Hone. induction Hnd as [|k ks Hk _ IH]; simpl; [constructor|].
  rewrite map_app.
  destruct (E k) as [|s [|s' rest]] eqn:Ek.
  - exact IH.
  - simpl. constructor; [|exact IH].
    rewrite (Hkey k s) by (rewrite Ek; now left).
    intros Hin. apply in_map_iff in Hin as [s' [Hs' Hin]].
    apply in_flat_map in Hin as [k' [Hk' Hin]].
    rewrite (Hkey k' s' Hin) in Hs'. injection Hs' as ->. contradiction.
  - specialize (Hone k). rewrite Ek in Hone. simpl in Hone. lia.
Qed.

(** X4.  No two records of one run are about the same merchant: the first
    tokens of the service names are pairwise distinct. *)
Theorem one_record_per_merchant (df : DataFrame) (subs : list subscription) :
  snd (detect_subscriptions df) = Ok subs ->
  NoDup (map (fun s => merchant_key (Service s)) subs).
Proof.
  intros H. rewrite (detect_listing df subs H).
  apply flat_map_keys_NoDup.
  - apply first_seen_NoDup.
  - intros k s. apply emitted_key.
  - intros k. apply emitted_short.
Qed.

Lemma StronglySorted_filter {A : Type} (R : A -> A -> Prop) (p : A -> bool)
      (l : list A) :
  StronglySorted R l -> StronglySorted R (filter p l).
Proof.
  induction 1 as [|x l Hs IH Hall]; simpl; [constructor|].
  destruct (p x); [|assumption].
  constructor; [assumption|].
  rewrite Forall_forall in *. intros y Hy. apply filter_In in Hy as [Hy _]. auto.
Qed.

Lemma StronglySorted_impl_in {A : Type} (R R' : A -> A -> Prop) (l : list A) :
  (forall a b, In a l -> In b l -> R a b -> R' a b) ->
  StronglySorted R l -> StronglySorted R' l.
Proof.
  intros Himp H. induction H as [|x l Hs IH Hall]; [constructor|].
  constructor.
  - apply IH. intros a b Ha Hb. apply Himp; now right.
  - rewrite Forall_forall in *. intros y Hy.
    apply Himp; [now left|now right|auto].
Qed.

Lemma StronglySorted_flat_map {A B : Type} (R : A -> A -> Prop)
      (R' : B -> B -> Prop) (E : A -> list B) (ks : list A) :
  (forall k, (List.length (E k) <= 1)%nat) ->
  (forall ka kb a b, In ka ks -> In kb ks -> R ka kb ->
                     In a (E ka) -> In b (E kb) -> R' a b) ->
  StronglySorted R ks -> StronglySorted R' (flat_map E ks).
Proof.
  intros Hone Hlift H. induction H as [|k ks Hs IH Hall]; simpl; [constructor|].
  assert (Htail : StronglySorted R' (flat_map E ks)).
  { apply IH. intros ka kb a b Ha Hb. apply Hlift; now right. }
  destruct (E k) as [|a [|a' rest]] eqn:Ek.
  - exact Htail.
  - simpl. constructor; [exact Htail|].
    apply Forall_forall. intros b Hb. apply in_flat_map in Hb as [kb [Hkb Hb]].
    rewrite Forall_forall in Hall.
    apply (Hlift k kb); auto; [now left|now right|rewrite Ek; now left].
  - specialize (Hone k). rewrite Ek in Hone. simpl in Hone. lia.
Qed.

(** The date of the first transaction with key [k] in a stream. *)
Lemma keys_of_cons (t : txn) (ts : list txn) :
  keys_of (t :: ts)
  = match key_of t with
    | Some k => k :: filter (fun k' => negb (String.eqb k' k)) (keys_of ts)
    | None => keys_of ts
    end.
Proof.
  unfold keys_of. simpl. destruct (key_of t); reflexivity.
Qed.

Lemma has_key_false (k : string) (t : txn) :
  key_of t <> Some k -> has_key k t = false.
Proof.
  intros H. destruct (has_key k t) eqn:E; [|reflexivity].
  apply has_key_iff in E. contradiction.
Qed.

(** In a stream in date order, the merchant keys come in order of the date
    of their first transaction. *)
Lemma keys_of_sorted (ts : list txn) :
  ascending txn_date ts ->
  StronglySorted
    (fun ka kb =>
       no_later (option_map txn_date (hd_error (filter (has_key ka) ts)))
                (option_map txn_date (hd_error (filter (has_key kb) ts))))
    (keys_of ts).
Proof.
  unfold ascending. induction ts as [|t ts IH]; intros Hasc; [constructor|].
  inversion Hasc as [|? ? Hs Hall]; subst. specialize (IH Hs).
  rewrite keys_of_cons. destruct (key_of t) as [k|] eqn:Ek.
  - constructor.
    + apply StronglySorted_filter with (p := fun k' => negb (String.eqb k' k)) in IH.
      eapply StronglySorted_impl_in; [|exact IH].
      intros ka kb Ha Hb HR.
      apply filter_In in Ha as [_ Ha]. apply filter_In in Hb as [_ Hb].
      apply negb_true_iff, String.eqb_neq in Ha, Hb.
      simpl. rewrite !has_key_false by congruence. exact HR.
    + apply Forall_forall. intros kb Hkb a b Ea Eb.
      simpl in Ea. rewrite (proj2 (has_key_iff k t) Ek) in Ea. simpl in Ea.
      injection Ea as <-.
      destruct (hd_error (filter (has_key kb) (t :: ts))) as [tb|] eqn:Eh;
        [|discriminate].
      simpl in Eb. injection Eb as <-.
      assert (Hin : In tb (filter (has_key kb) (t :: ts))).
      { destruct (filter (has_key kb) (t :: ts)); [discriminate|].
        simpl in Eh. injection Eh as ->. now left. }
      apply filter_In in Hin as [[<-|Hin] _]; [lia|].
      rewrite Forall_forall in Hall. auto.
  - eapply StronglySorted_impl_in; [|exact IH].
    intros ka kb _ _ HR. simpl.
    rewrite !has_key_false by congruence. exact HR.
Qed.

(** X5.  The records are listed in order of first charge: a record never
    comes before one whose merchant was first charged earlier. *)
Theorem listed_by_first_charge (df : DataFrame) (subs : list subscription) :
  snd (detect_subscriptions df) = Ok subs ->
  StronglySorted (fun a b => no_later (first_charge df a) (first_charge df b)) subs.
Proof.
  intros H. rewrite (detect_listing df subs H).
  eapply StronglySorted_flat_map;
    [intros k; apply emitted_short| |apply keys_of_sorted, sort_by_ascending].
  intros ka kb a b _ _ HR Ha Hb.
  unfold first_charge.
  rewrite (emitted_key df ka a Ha), (emitted_key df kb b Hb).
  rewrite <- !(stream_group parse_datetime). exact HR.
Qed.

(** ** A second call on the same frame *)

Lemma group_rows_txns (rows1 rows2 : list (Z * row)) (acc : merchant_groups) :
  map txn_of_pair rows1 = map txn_of_pair rows2 ->
  group_rows rows1 acc = group_rows rows2 acc.
Proof.
  revert rows2 acc. induction rows1 as [|[ts1 r1] rows1 IH];
    intros [|[ts2 r2] rows2] acc H; try discriminate; [reflexivity|].
  simpl in H. injection H as Hts Ha Hd Hc Hrest. simpl in *. subst.
  rewrite Hd, Ha, Hc.
  destruct (PyStr.item0 (PyStr.split (description r2))); simpl; [|reflexivity].
  now apply IH.
Qed.

Lemma convert_row_parses (r : row) :
  stamp_of (date r) <> None ->
  transaction_of (convert_row r) = transaction_of r
  /\ convert_row (convert_row r) = convert_row r
  /\ stamp_of (date (convert_row r)) <> None.
Proof.
  intros H. unfold convert_row, transaction_of.
  destruct (stamp_of (date r)) as [ts|] eqn:E; [|contradiction].
  simpl. repeat split. discriminate.
Qed.

Lemma converted_frame (df : DataFrame) :
  dates_parse df ->
  dates_parse (map convert_row df)
  /\ charges (map convert_row df) = charges df
  /\ map convert_row (map convert_row df) = map convert_row df.
Proof.
  unfold dates_parse. induction 1 as [|r df Hr _ IH]; [repeat split; constructor|].
  destruct IH as (IH1 & IH2 & IH3).
  destruct (convert_row_parses r Hr) as (Ht & Hc & Hs).
  repeat split.
  - constructor; assumption.
  - unfold charges in *. simpl. now rewrite Ht, IH2.
  - simpl. now rewrite Hc, IH3.
Qed.

(** X6.  Calling the detector again on the frame a first call has left
    gives the same outcome and leaves the frame as it is: the date column is
    rewritten once. *)
Theorem second_call_same (df : DataFrame) :
  detect_subscriptions (fst (detect_subscriptions df)) = detect_subscriptions df.
Proof.
  unfold detect_subscriptions at 2 3, to_datetime.
  destruct (to_datetime_from parse_datetime 0 (map date df)) as [stamps|e] eqn:E.
  - pose proof (to_datetime_from_parse parse_datetime df 0 stamps E) as Hd.
    destruct (to_datetime_from_ok parse_datetime df 0 Hd) as (stamps0 & E0 & Hc & Ha).
    rewrite E in E0. injection E0 as <-. cbn [fst]. rewrite Ha.
    destruct (converted_frame df Hd) as (Hd' & Hc' & Hm').
    destruct (detect_converted parse_datetime _ Hd') as (stamps' & Hcs & E').
    rewrite E', Hm'.
    rewrite (group_rows_txns (sort_values (map convert_row df) stamps')
                             (sort_values df stamps)); [reflexivity|].
    rewrite (sorted_rows_stream parse_datetime _ _ Hcs).
    rewrite (sorted_rows_stream parse_datetime _ _ Hc).
    unfold stream. now rewrite Hc'.
  - cbn [fst]. unfold detect_subscriptions, to_datetime. now rewrite E.
Qed.

(** ** What a record says about its transactions *)

Lemma emitted_count (df : DataFrame) (k : string) (s : subscription) :
  In s (emitted (merchant_group df k)) ->
  Times_Charged s = List.length (merchant_group df k)
  /\ (2 <= List.length (merchant_group df k))%nat.
Proof.
  unfold emitted. intros H.
  destruct (examine (merchant_group df k)) as [[s'|]|e] eqn:E; try destruct H;
    try contradiction.
  subst s'.
  destruct (examine_fields _ _ (merchant_group_ascending parse_datetime df k) E)
    as (avg & first & rest & _ & _ & (Hlen & _) & ->).
  split; [reflexivity|exact Hlen].
Qed.

Lemma list_sum_flat_map_le {A B : Type} (T : B -> nat) (L : A -> nat)
      (E : A -> list B) (ks : list A) :
  (forall k, In k ks -> (list_sum (map T (E k)) <= L k)%nat) ->
  (list_sum (map T (flat_map E ks)) <= list_sum (map L ks))%nat.
Proof.
  induction ks as [|k ks IH]; intros H; simpl; [lia|].
  rewrite map_app, list_sum_app.
  specialize (H k (or_introl eq_refl)) as Hk.
  specialize (IH (fun k' Hk' => H k' (or_intror Hk'))). lia.
Qed.

Lemma one_key_per_txn (t : txn) (ks : list string) :
  NoDup ks ->
  (list_sum (map (fun k => if has_key k t then 1 else 0)%nat ks) <= 1)%nat.
Proof.
  induction 1 as [|k ks Hk _ IH]; simpl; [lia|].
  destruct (has_key k t) eqn:E; [|lia].
  apply has_key_iff in E.
  assert (Hz : list_sum (map (fun k' => if has_key k' t then 1 else 0)%nat ks) = 0%nat).
  { clear IH. induction ks as [|k' ks IH]; simpl; [reflexivity|].
    rewrite has_key_false.
    - apply IH. intros H. apply Hk. now right.
    - rewrite E. intros H. injection H as ->. apply Hk. now left. }
  lia.
Qed.

(** Groups of distinct keys share no transaction. *)
Lemma groups_fit (ts : list txn) (ks : list string) :
  NoDup ks ->
  (list_sum (map (fun k => List.length (filter (has_key k) ts)) ks)
   <= List.length ts)%nat.
Proof.
  intros Hnd. induction ts as [|t ts IH]; simpl.
  - induction ks; simpl; [lia|]. inversion Hnd; subst. auto.
  - pose proof (one_key_per_txn t ks Hnd) as H1.
    assert (Hsplit : list_sum (map (fun k => List.length
                                      (if has_key k t then t :: filter (has_key k) ts
                                       else filter (has_key k) ts)) ks)
                     = (list_sum (map (fun k => if has_key k t then 1 else 0) ks)
                        + list_sum (map (fun k => List.length (filter (has_key k) ts)) ks))%nat).
    { clear. induction ks as [|k ks IHk]; simpl; [reflexivity|].
      rewrite IHk. destruct (has_key k t); simpl; lia. }
    rewrite Hsplit. lia.
Qed.

Lemma charges_length (df : DataFrame) :
  (List.length (charges df) <= List.length df)%nat.
Proof.
  unfold charges. induction df as [|r df IH]; simpl; [lia|].
  rewrite length_app. destruct (transaction_of r); simpl; lia.
Qed.

(** X7.  Every record counts two charges or more, and no transaction is
    counted by two records: the counts of all records together do not
    exceed the number of rows of the frame. *)
Theorem charges_counted_once (df : DataFrame) (subs : list subscription) :
  snd (detect_subscriptions df) = Ok subs ->
  Forall (fun s => (2 <= Times_Charged s)%nat) subs
  /\ (list_sum (map Times_Charged subs) <= List.length df)%nat.
Proof.
  intros H. rewrite (detect_listing df subs H). split.
  - apply Forall_forall. intros s Hs. apply in_flat_map in Hs as [k [_ Hs]].
    destruct (emitted_count df k s Hs) as [-> Hlen]. exact Hlen.
  - etransitivity; [|apply charges_length].
    rewrite <- (sort_by_length txn_date (charges df)). fold (stream df).
    etransitivity; [|apply (groups_fit (stream df) (keys_of (stream df))),
                      first_seen_NoDup].
    apply list_sum_flat_map_le. intros k _.
    rewrite (stream_group parse_datetime).
    pose proof (emitted_short (merchant_group df k)) as Hone.
    destruct (emitted (merchant_group df k)) as [|s [|s' rest]] eqn:Ee;
      simpl in Hone |- *; try lia.
    destruct (emitted_count df k s) as [-> _]; [rewrite Ee; now left|lia].
Qed.

Lemma record_group (df : DataFrame) (subs : list subscription) (s : subscription)
      (k : string) :
  snd (detect_subscriptions df) = Ok subs -> In s subs ->
  merchant_key (Service s) = Some k ->
  examine (merchant_group df k) = Ok (Some s).
Proof.
  intros H Hs Hk.
  destruct (emitted_record parse_datetime df subs s H Hs) as (k' & _ & E).
  pose proof (record_key parse_datetime df k' s E) as Hk'.
  assert (k' = k) as -> by congruence. exact E.
Qed.


Lemma last_default (g : list txn) (d d' : txn) : g <> [] -> last g d = last g d'.
Proof.
  induction g as [|a [|b g] IH]; intros H; [contradiction|reflexivity|].
  change (last (b :: g) d = last (b :: g) d'). apply IH. discriminate.
Qed.

Lemma regular_span (g rest : list txn) (first : txn) :
  g = first :: rest -> interval_regular g ->
  25 * Timestamp.ns_per_day * (Z.of_nat (List.length g) - 1)
  <= txn_date (last g first) - txn_date first
  <= (36 * Timestamp.ns_per_day - 1) * (Z.of_nat (List.length g) - 1).
Proof.
  revert g first. induction rest as [|b rest IH]; intros g first -> Hreg.
  - simpl. lia.
  - assert (Htail : interval_regular (b :: rest)).
    { intros i d Hi. exact (Hreg (S i) d ltac:(simpl in *; lia)). }
    specialize (IH (b :: rest) b eq_refl Htail).
    specialize (Hreg O first ltac:(simpl; lia)).
    unfold gap, Timestamp.days in Hreg. simpl nth in Hreg.
    change (last (first :: b :: rest) first) with (last (b :: rest) first).
    rewrite (last_default (b :: rest) first b) by discriminate.
    change (List.length (first :: b :: rest)) with (S (List.length (b :: rest))).
    rewrite Nat2Z.inj_succ.
    unfold Timestamp.ns_per_day in *.
    pose proof (Z.div_mod (txn_date b - txn_date first) 86400000000000 ltac:(lia)) as Hdm.
    pose proof (Z.mod_pos_bound (txn_date b - txn_date first) 86400000000000 ltac:(lia)) as Hmb.
    lia.
Qed.

(** X9.  A record that counts [n] charges covers at least [25 (n - 1)] and
    fewer than [36 (n - 1)] whole days from the first charge of its merchant
    to the last. *)
Theorem charges_span (df : DataFrame) (subs : list subscription)
        (s : subscription) (k : string) (first : txn) :
  snd (detect_subscriptions df) = Ok subs -> In s subs ->
  merchant_key (Service s) = Some k ->
  hd_error (merchant_group df k) = Some first ->
  25 * (Z.of_nat (Times_Charged s) - 1)
  <= Timestamp.days (txn_date (last (merchant_group df k) first) - txn_date first)
  < 36 * (Z.of_nat (Times_Charged s) - 1).
Proof.
  intros H Hs Hk Hfirst.
  pose proof (record_group df subs s k H Hs Hk) as E.
  destruct (examine_fields _ _ (merchant_group_ascending parse_datetime df k) E)
    as (avg & first' & rest & Eg & _ & (Hlen & _ & Hreg) & ->).
  cbn [Times_Charged].
  assert (first' = first) as ->
    by (rewrite Eg in Hfirst; simpl in Hfirst; congruence).
  pose proof (regular_span _ rest first Eg Hreg) as Hspan.
  assert (Hn : 2 <= Z.of_nat (List.length (merchant_group df k))) by lia.
  set (n := Z.of_nat (List.length (merchant_group df k))) in *.
  unfold Timestamp.days, Timestamp.ns_per_day in *.
  split.
  - apply Z.div_le_lower_bound; lia.
  - apply Z.div_lt_upper_bound; lia.
Qed.

(** X14.  The record of a merchant is decided by that merchant's
    transactions alone: two frames that agree on the group of a key agree on
    the records about that key. *)
Theorem record_of_group_only (df1 df2 : DataFrame) (subs1 subs2 : list subscription)
        (k : string) (s : subscription) :
  snd (detect_subscriptions df1) = Ok subs1 ->
  snd (detect_subscriptions df2) = Ok subs2 ->
  merchant_group df1 k = merchant_group df2 k ->
  merchant_key (Service s) = Some k ->
  In s subs1 <-> In s subs2.
Proof.
  intros H1 H2 Hg Hk. split; intros Hs.
  - pose proof (record_group df1 subs1 s k H1 Hs Hk) as E. rewrite Hg in E.
    eapply (record_emitted parse_datetime); eauto.
  - pose proof (record_group df2 subs2 s k H2 Hs Hk) as E. rewrite <- Hg in E.
    eapply (record_emitted parse_datetime); eauto.
Qed.




End Outcome.

(** ** The cancellation tracker and the savings block *)

Lemma toggle_spec (is_checked : nat -> bool) (marked : set nat) (idx : nat) :
  NoDup marked ->
  NoDup (Page.toggle is_checked marked idx)
  /\ forall j, In j (Page.toggle is_checked marked idx)
               <-> (j = idx /\ is_checked idx = true) \/ (j <> idx /\ In j marked).
Proof.
  intros Hnd. unfold Page.toggle. destruct (is_checked idx) eqn:Ec.
  - split; [now apply set_add_nodup|]. intros j. rewrite set_add_iff.
    destruct (Nat.eq_dec j idx) as [->|Hne]; intuition.
  - destruct (set_mem Nat.eq_dec idx marked) eqn:Em.
    + split; [now apply set_remove_nodup|]. intros j.
      rewrite set_remove_iff by assumption. intuition; discriminate.
    + split; [assumption|]. intros j.
      apply set_mem_complete1 in Em.
      split.
      * intros Hj. right. split; [|assumption]. intros ->. contradiction.
      * intros [[_ H]|[_ H]]; [discriminate|assumption].
Qed.

Lemma track_range (is_checked : nat -> bool) (len a : nat) (marked : set nat) :
  NoDup marked ->
  NoDup (fold_left (Page.toggle is_checked) (seq a len) marked)
  /\ forall j, In j (fold_left (Page.toggle is_checked) (seq a len) marked)
               <-> ((a <= j < a + len)%nat /\ is_checked j = true)
                   \/ (~ (a <= j < a + len)%nat /\ In j marked).
Proof.
  revert a marked. induction len as [|len IH]; intros a marked Hnd.
  - simpl. split; [assumption|]. intros j. split.
    + intros H. right. split; [lia|assumption].
    + intros [[H _]|[_ H]]; [lia|assumption].
  - simpl. destruct (toggle_spec is_checked marked a Hnd) as [Hnd1 H1].
    destruct (IH (S a) _ Hnd1) as [Hnd2 H2].
    split; [assumption|]. intros j. rewrite H2, H1.
    destruct (Nat.eq_dec j a) as [->|Hne].
    + split.
      * intros [[H _]|[_ [[_ H]|[H _]]]]; try lia; try contradiction.
        left. split; [lia|assumption].
      * intros [[_ H]|[H _]]; [|lia].
        right. split; [lia|]. left. now split.
    + split.
      * intros [[H Hc]|[H [[H' _]|[_ Hin]]]]; try contradiction.
        -- left. split; [lia|assumption].
        -- right. split; [lia|assumption].
      * intros [[H Hc]|[H Hin]].
        -- left. split; [lia|assumption].
        -- right. split; [lia|]. right. now split.
Qed.

Lemma track_marks_spec (is_checked : nat -> bool) (subscriptions_df : list subscription)
        (marked : set nat) :
  NoDup marked ->
  NoDup (Page.track is_checked subscriptions_df marked)
  /\ forall idx,
       In idx (Page.track is_checked subscriptions_df marked)
       <-> ((idx < List.length subscriptions_df)%nat /\ is_checked idx = true)
           \/ ((List.length subscriptions_df <= idx)%nat /\ In idx marked).
Proof.
  intros Hnd. unfold Page.track.
  destruct (track_range is_checked (List.length subscriptions_df) 0 marked Hnd)
    as [H1 H2].
  split; [assumption|]. intros idx. rewrite H2. simpl.
  split; (intros [[H Hc]|[H Hin]]; [left|right]; split; try assumption; lia).
Qed.

(** X10.  After the loop over the rows, a row of the current list is marked
    exactly when its check box is ticked; marks at positions past the end
    of the list, left by an earlier and longer list, stay as they were. *)
Theorem tracker_marks (is_checked : nat -> bool) (subscriptions_df : list subscription)
        (marked : set nat) :
  NoDup marked ->
  NoDup (Page.track is_checked subscriptions_df marked)
  /\ forall idx,
       In idx (Page.track is_checked subscriptions_df marked)
       <-> ((idx < List.length subscriptions_df)%nat /\ is_checked idx = true)
           \/ ((List.length subscriptions_df <= idx)%nat /\ In idx marked).
Proof. apply track_marks_spec. Qed.

Lemma iloc_in_range (subscriptions_df : list subscription) (positions : list nat) :
  Forall (fun idx => (idx < List.length subscriptions_df)%nat) positions ->
  exists rows, Page.iloc subscriptions_df positions = Ok rows.
Proof.
  induction 1 as [|idx rest Hidx _ [rows IH]]; simpl; [eauto|].
  apply nth_error_Some in Hidx.
  destruct (nth_error subscriptions_df idx); [|contradiction].
  rewrite IH. simpl. eauto.
Qed.

Lemma iloc_out_of_range (subscriptions_df : list subscription) (positions : list nat) :
  Exists (fun idx => (List.length subscriptions_df <= idx)%nat) positions ->
  Page.iloc subscriptions_df positions = Raise IndexError.
Proof.
  induction positions as [|idx rest IH]; intros H; [inversion H|].
  simpl. destruct (nth_error subscriptions_df idx) as [row|] eqn:En; [|reflexivity].
  rewrite IH; [reflexivity|].
  inversion H as [? ? Hle|]; subst; [|assumption].
  assert (idx < List.length subscriptions_df)%nat by (apply nth_error_Some; congruence).
  lia.
Qed.

Lemma in_range_dec (n : nat) (positions : list nat) :
  {Forall (fun idx => (idx < n)%nat) positions}
  + {Exists (fun idx => (n <= idx)%nat) positions}.
Proof.
  destruct (Forall_Exists_dec (fun idx => (idx < n)%nat)
              (fun idx => lt_dec idx n) positions) as [H|H]; [now left|right].
  eapply Exists_impl; [|exact H]. simpl. intros; lia.
Qed.

Lemma savings_raise_spec (subscriptions_df : list subscription) (marked : set nat)
        (e : error) :
  Page.savings subscriptions_df marked = Raise e
  <-> e = IndexError
      /\ exists idx, In idx marked /\ (List.length subscriptions_df <= idx)%nat.
Proof.
  destruct (in_range_dec (List.length subscriptions_df) marked) as [Hin|Hout].
  - split.
    + intros H. exfalso. unfold Page.savings in H.
      destruct marked as [|idx rest]; [discriminate|].
      destruct (iloc_in_range _ _ Hin) as [rows E]. rewrite E in H. discriminate.
    + intros [_ [idx [Hidx Hle]]]. rewrite Forall_forall in Hin.
      specialize (Hin idx Hidx). lia.
  - assert (E : Page.savings subscriptions_df marked = Raise IndexError).
    { unfold Page.savings. destruct marked as [|idx rest]; [inversion Hout|].
      now rewrite iloc_out_of_range. }
    rewrite E. split.
    + intros H. injection H as <-. split; [reflexivity|].
      apply Exists_exists in Hout. exact Hout.
    + intros [-> _]. reflexivity.
Qed.

(** X11.  The savings block raises exactly when a mark points past the end
    of the list of subscriptions, and what it raises then is [IndexError]. *)
Theorem savings_raises_iff (subscriptions_df : list subscription) (marked : set nat)
        (e : error) :
  Page.savings subscriptions_df marked = Raise e
  <-> e = IndexError
      /\ exists idx, In idx marked /\ (List.length subscriptions_df <= idx)%nat.
Proof. apply savings_raise_spec. Qed.

(** X12.  The page raises after detection exactly when the list of
    subscriptions is not empty and the session holds a mark past its end;
    a session without the entry never makes it raise. *)
Theorem report_raises_iff (is_checked : nat -> bool)
        (subscriptions_df : list subscription) (session : option (set nat))
        (e : error) :
  NoDup (match session with Some marked => marked | None => [] end) ->
  snd (Page.report is_checked subscriptions_df session) = Raise e
  <-> e = IndexError
      /\ subscriptions_df <> []
      /\ exists idx,
           In idx (match session with Some marked => marked | None => [] end)
           /\ (List.length subscriptions_df <= idx)%nat.
Proof.
  intros Hnd. unfold Page.report, empty_set.
  destruct subscriptions_df as [|row rows] eqn:Es.
  - simpl. split; [discriminate|]. intros (_ & H & _). contradiction.
  - rewrite <- Es in *.
    assert (Hpos : (0 <? List.length subscriptions_df)%nat = true)
      by (rewrite Es; reflexivity).
    rewrite Hpos. cbn [snd].
    set (marked0 := match session with Some marked => marked | None => [] end) in *.
    destruct (track_marks_spec is_checked subscriptions_df marked0 Hnd) as [_ Htrack].
    destruct (Page.savings subscriptions_df
                (Page.track is_checked subscriptions_df marked0)) as [saved|e'] eqn:E;
      cbn [bind].
    + split; [discriminate|]. intros (-> & _ & idx & Hidx & Hle). exfalso.
      assert (Hr : Page.savings subscriptions_df
                     (Page.track is_checked subscriptions_df marked0) = Raise IndexError).
      { apply savings_raise_spec. split; [reflexivity|]. exists idx.
        split; [|assumption]. apply Htrack. right. now split. }
      congruence.
    + apply savings_raise_spec in E as (-> & idx & Hidx & Hle).
      apply Htrack in Hidx as [[Hlt _]|[_ Hidx]]; [lia|].
      split.
      * intros H. injection H as <-. split; [reflexivity|].
        split; [rewrite Es; discriminate|eauto].
      * intros (-> & _). reflexivity.
Qed.

Lemma set_add_new (idx : nat) (marked : set nat) :
  ~ In idx marked -> set_add Nat.eq_dec idx marked = (marked ++ [idx])%list.
Proof.
  induction marked as [|j marked IH]; simpl; intros H; [reflexivity|].
  destruct (Nat.eq_dec idx j) as [->|Hne]; [exfalso; apply H; now left|].
  rewrite IH; [reflexivity|]. intros Hin. apply H. now right.
Qed.

Lemma track_all (len a : nat) :
  fold_left (Page.toggle (fun _ => true)) (seq a len) (seq 0 a) = seq 0 (a + len).
Proof.
  revert a. induction len as [|len IH]; intros a; simpl.
  - now rewrite Nat.add_0_r.
  - unfold Page.toggle at 2. rewrite set_add_new by (rewrite in_seq; lia).
    replace (seq 0 a ++ [a])%list with (seq 0 (S a)) by (now rewrite seq_S).
    rewrite IH. f_equal. lia.
Qed.

Lemma track_none (len a : nat) :
  fold_left (Page.toggle (fun _ => false)) (seq a len) [] = [].
Proof.
  revert a. induction len as [|len IH]; intros a; simpl; [reflexivity|apply IH].
Qed.

Lemma iloc_all (pre rest : list subscription) :
  Page.iloc (pre ++ rest) (seq (List.length pre) (List.length rest)) = Ok rest.
Proof.
  revert pre. induction rest as [|row rest IH]; intros pre; simpl; [reflexivity|].
  rewrite nth_error_app2 by lia. rewrite Nat.sub_diag. simpl.
  specialize (IH (pre ++ [row])%list).
  rewrite <- app_assoc, length_app in IH. simpl in IH.
  rewrite Nat.add_1_r in IH. now rewrite IH.
Qed.

(** X13.  From a session without marks: with every box ticked the savings
    are the totals of the metric row and the marked rows are the whole list;
    with no box ticked there is no savings block and no mark. *)
Theorem all_or_none_marked (subscriptions_df : list subscription) :
  subscriptions_df <> [] ->
  Page.report (fun _ => true) subscriptions_df None
  = (Some (seq 0 (List.length subscriptions_df)),
     Ok (Some (Page.metrics subscriptions_df,
               Some (Page.total_monthly subscriptions_df,
                     Page.total_annual subscriptions_df,
                     subscriptions_df))))
  /\ Page.report (fun _ => false) subscriptions_df None
     = (Some [], Ok (Some (Page.metrics subscriptions_df, None))).
Proof.
  intros Hne. unfold Page.report.
  destruct subscriptions_df as [|row rows] eqn:Es; [contradiction|].
  rewrite <- Es in *.
  assert (Hpos : (0 <? List.length subscriptions_df)%nat = true)
    by (rewrite Es; reflexivity).
  rewrite Hpos. unfold Page.track. split.
  - change (empty_set nat) with (seq 0 0). rewrite track_all. simpl Nat.add.
    unfold Page.savings.
    pose proof (iloc_all [] subscriptions_df) as Hi. simpl in Hi.
    destruct (seq 0 (List.length subscriptions_df)) as [|i more] eqn:Eq.
    + rewrite Es in Eq. discriminate.
    + rewrite Hi. reflexivity.
  - unfold empty_set. now rewrite track_none.
Qed.

(** ** The savings and the order of the marks *)









(** ** Concrete runs of the further properties *)

Example merchant_key_netflix :
  merchant_key "  Netflix Premium plan" = Some "Netflix"
  /\ merchant_key "Netflix" = Some "Netflix"
  /\ merchant_key "" = None.
Proof. repeat split. Qed.



Lemma two_services_return :
  snd (detect_subscriptions Iso.parse Scenario.netflix_first)
  = Ok (Scenario.records Scenario.netflix_first).
Proof. vm_compute. reflexivity. Defined.

Lemma one_record_per_merchant_witness :
  snd (detect_subscriptions Iso.parse Scenario.netflix_first)
  = Ok (Scenario.records Scenario.netflix_first)
  /\ NoDup (map (fun s => merchant_key (Service s))
                (Scenario.records Scenario.netflix_first)).
Proof.
  split; [exact two_services_return|].
  exact (one_record_per_merchant Iso.parse Scenario.netflix_first _ two_services_return).
Defined.

Lemma listed_by_first_charge_witness :
  snd (detect_subscriptions Iso.parse Scenario.netflix_first)
  = Ok (Scenario.records Scenario.netflix_first)
  /\ StronglySorted
       (fun a b => no_later (first_charge Iso.parse Scenario.netflix_first a)
                            (first_charge Iso.parse Scenario.netflix_first b))
       (Scenario.records Scenario.netflix_first).
Proof.
  split; [exact two_services_return|].
  exact (listed_by_first_charge Iso.parse Scenario.netflix_first _ two_services_return).
Defined.

Lemma charges_counted_once_witness :
  snd (detect_subscriptions Iso.parse Scenario.netflix_first)
  = Ok (Scenario.records Scenario.netflix_first)
  /\ Forall (fun s => (2 <= Times_Charged s)%nat)
            (Scenario.records Scenario.netflix_first)
  /\ (list_sum (map Times_Charged (Scenario.records Scenario.netflix_first))
      <= List.length Scenario.netflix_first)%nat.
Proof.
  split; [exact two_services_return|].
  exact (charges_counted_once Iso.parse Scenario.netflix_first _ two_services_return).
Defined.

Lemma gym_record :
  exists s, In s (Scenario.records Scenario.gym)
            /\ merchant_key (Service s) = Some "Gym".
Proof. eexists. split; [vm_compute; left; reflexivity|vm_compute; reflexivity]. Defined.


Lemma gym_first :
  exists first, hd_error (merchant_group Iso.parse Scenario.gym "Gym") = Some first.
Proof. eexists. vm_compute. reflexivity. Defined.

Lemma charges_span_witness :
  exists s first,
    In s (Scenario.records Scenario.gym)
    /\ merchant_key (Service s) = Some "Gym"
    /\ hd_error (merchant_group Iso.parse Scenario.gym "Gym") = Some first
    /\ 25 * (Z.of_nat (Times_Charged s) - 1)
       <= Timestamp.days
            (txn_date (last (merchant_group Iso.parse Scenario.gym "Gym") first)
             - txn_date first)
       < 36 * (Z.of_nat (Times_Charged s) - 1).
Proof.
  destruct gym_record as (s & Hs & Hk). destruct gym_first as (first & Hf).
  exists s, first.
  split; [exact Hs|]. split; [exact Hk|]. split; [exact Hf|].
  exact (charges_span Iso.parse Scenario.gym _ s "Gym" first gym_returns Hs Hk Hf).
Defined.

Lemma pair_returns :
  snd (detect_subscriptions Iso.parse Sample.netflix_pair)
  = Ok (Scenario.records Sample.netflix_pair).
Proof. vm_compute. reflexivity. Defined.

Lemma pair_record :
  exists s, In s (Scenario.records Sample.netflix_pair)
            /\ merchant_key (Service s) = Some "Netflix".
Proof. eexists. split; [vm_compute; left; reflexivity|vm_compute; reflexivity]. Defined.

Lemma same_netflix_group :
  merchant_group Iso.parse Sample.netflix_pair "Netflix"
  = merchant_group Iso.parse Scenario.netflix_first "Netflix".
Proof. vm_compute. reflexivity. Defined.

Lemma record_of_group_only_witness :
  exists s,
    In s (Scenario.records Sample.netflix_pair)
    /\ merchant_key (Service s) = Some "Netflix"
    /\ In s (Scenario.records Scenario.netflix_first).
Proof.
  destruct pair_record as (s & Hs & Hk). exists s.
  split; [exact Hs|]. split; [exact Hk|].
  exact (proj1 (record_of_group_only Iso.parse Sample.netflix_pair
                  Scenario.netflix_first _ _ "Netflix" s
                  pair_returns two_services_return same_netflix_group Hk) Hs).
Defined.



Lemma stale_marks_NoDup : NoDup Sample.stale_marks.
Proof.
  unfold Sample.stale_marks.
  constructor; [simpl; intros [H|[]]; discriminate|].
  constructor; [simpl; tauto|constructor].
Defined.

Lemma tracker_marks_witness :
  NoDup Sample.stale_marks
  /\ forall idx,
       In idx (Page.track Sample.second_ticked Sample.listing Sample.stale_marks)
       <-> ((idx < List.length Sample.listing)%nat /\ Sample.second_ticked idx = true)
           \/ ((List.length Sample.listing <= idx)%nat /\ In idx Sample.stale_marks).
Proof.
  split; [exact stale_marks_NoDup|].
  exact (proj2 (tracker_marks Sample.second_ticked Sample.listing Sample.stale_marks
                  stale_marks_NoDup)).
Defined.

(** Marks left by a longer list make the page raise on a shorter one. *)
Lemma report_raises_iff_witness :
  NoDup Sample.stale_marks
  /\ snd (Page.report Sample.second_ticked Sample.listing (Some Sample.stale_marks))
     = Raise IndexError.
Proof.
  split; [exact stale_marks_NoDup|].
  apply (proj2 (report_raises_iff Sample.second_ticked Sample.listing
                  (Some Sample.stale_marks) IndexError stale_marks_NoDup)).
  split; [reflexivity|]. split; [discriminate|].
  exists 5%nat. split; [right; now left|simpl; lia].
Defined.

Lemma listing_not_empty : Sample.listing <> [].
Proof. discriminate. Defined.

Lemma all_or_none_marked_witness :
  Sample.listing <> []
  /\ Page.report (fun _ => true) Sample.listing None
     = (Some (seq 0 (List.length Sample.listing)),
        Ok (Some (Page.metrics Sample.listing,
                  Some (Page.total_monthly Sample.listing,
                        Page.total_annual Sample.listing,
                        Sample.listing)))).
Proof.
  split; [exact listing_not_empty|].
  exact (proj1 (all_or_none_marked Sample.listing listing_not_empty)).
Defined.





